(** * update_ovh_ddns: a shallow embedding of [update_ovh_ddns.py]

    The script is sequential glue around two text files (the bounded log and
    the address cache), one configuration file and an external HTTP client.
    The embedding keeps that shape:

    - Python [str] values are [string]s, a character being a code point
      below 256; the text layer of [open] (universal newlines on input,
      [os.linesep] on output), [str.strip], [readlines]/[writelines] and
      [strftime] are written out as functions;
    - the file system is a finite map from paths to file contents;
    - the process is a reader/state/exception monad: the environment holds
      what the script only observes ([sys.argv], [os.name], the clock, the
      outcome of each [curl] command, [configparser]), the state holds the
      files and the chronological trace of everything the process did;
    - [sys.exit] and uncaught exceptions are outcomes of a computation.

    Outside the model: the encoding of characters into bytes, and failures
    of the file system itself (a file that exists can be read, any file can
    be written). *)

From Stdlib Require Import ZArith Ascii DecimalString.
From stdpp Require Import gmap strings list fin_maps.

(** ** Characters and Python's [str.strip] *)

Module Text.

Definition LF : ascii := "010"%char.
Definition CR : ascii := "013"%char.

(** The line feed as a one-character string, Python's ["\n"]. *)
Definition nl : string := String LF "".

(** [str.isspace] on the code points below 256: TAB..CR, FS..US, SPACE,
    NEL (0x85) and NBSP (0xA0). These are the characters [str.strip()]
    removes when called without argument. *)
Definition is_space (c : ascii) : bool :=
  let n := nat_of_ascii c in
  (((9 <=? n) && (n <=? 13)) || ((28 <=? n) && (n <=? 32))
   || (n =? 133) || (n =? 160))%nat.

Fixpoint lstrip (s : string) : string :=
  match s with
  | "" => ""
  | String c s' => if is_space c then lstrip s' else s
  end.

Fixpoint rstrip (s : string) : string :=
  match s with
  | "" => ""
  | String c s' =>
      match rstrip s' with
      | "" => if is_space c then "" else String c ""
      | r => String c r
      end
  end.

(** [s.strip()] *)
Definition strip (s : string) : string := rstrip (lstrip s).

(** Every character of the string is whitespace. *)
Fixpoint all_space (s : string) : bool :=
  match s with
  | "" => true
  | String c s' => is_space c && all_space s'
  end.

(** The string holds no occurrence of the character [c]. *)
Fixpoint lacks (c : ascii) (s : string) : bool :=
  match s with
  | "" => true
  | String d s' => negb (Ascii.eqb d c) && lacks c s'
  end.

(** No line break of either kind: what a one-line log message looks like. *)
Definition single_line (s : string) : bool := lacks LF s && lacks CR s.

(** [s.endswith(suffix)] *)
Fixpoint ends_with (suffix s : string) : bool :=
  String.eqb suffix s ||
  match s with
  | "" => false
  | String _ s' => ends_with suffix s'
  end.

(** ** The text layer of [open(path, mode, encoding="utf-8")]

    No [newline=] argument is passed, so on input the stream is in universal
    newlines mode: ["\r\n"] and a lone ["\r"] are both handed to the program
    as ["\n"]. On output every ["\n"] is written as [os.linesep], that is
    ["\r\n"] when [os.name == "nt"] and ["\n"] otherwise. *)

Fixpoint text_read (raw : string) : string :=
  match raw with
  | "" => ""
  | String c rest =>
      if Ascii.eqb c CR then
        match rest with
        | String d rest' =>
            if Ascii.eqb d LF then String LF (text_read rest')
            else String LF (text_read rest)
        | "" => String LF ""
        end
      else String c (text_read rest)
  end.

Fixpoint text_write (nt : bool) (s : string) : string :=
  match s with
  | "" => ""
  | String c rest =>
      if nt && Ascii.eqb c LF then String CR (String LF (text_write nt rest))
      else String c (text_write nt rest)
  end.

(** [f.readlines()] on the text of a file: the lines with their line feed
    kept; a last line without line feed is returned as it is. *)
Fixpoint readlines (s : string) : list string :=
  match s with
  | "" => []
  | String c rest =>
      if Ascii.eqb c LF then String c "" :: readlines rest
      else match readlines rest with
           | [] => [String c ""]
           | l :: ls => String c l :: ls
           end
  end.

(** [f.writelines(lines)] writes the items one after the other. *)
Definition joinlines (lines : list string) : string :=
  foldr String.append "" lines.

(** [lines[-n:]] for [n > 0]: the last [n] items, all of them when there are
    fewer. *)
Definition last_n {A} (n : nat) (l : list A) : list A :=
  drop (length l - n) l.

End Text.
Import Text.

(** ** [datetime.now().strftime("%Y-%m-%d %H:%M:%S")] *)

Module Clock.

Record datetime := {
  year : nat; month : nat; day : nat;
  hour : nat; minute : nat; second : nat
}.

Definition decimal (n : nat) : string :=
  NilZero.string_of_uint (Nat.to_uint n).

Fixpoint zeros (n : nat) : string :=
  match n with
  | O => ""
  | S n' => String "0" (zeros n')
  end.

(** A number in decimal, zero-padded on the left to [width] digits. *)
Definition padded (width n : nat) : string :=
  let d := decimal n in zeros (width - String.length d) +:+ d.

Definition strftime (t : datetime) : string :=
  padded 4 (year t) +:+ "-" +:+ padded 2 (month t) +:+ "-" +:+
  padded 2 (day t) +:+ " " +:+ padded 2 (hour t) +:+ ":" +:+
  padded 2 (minute t) +:+ ":" +:+ padded 2 (second t).

End Clock.
Import Clock.

(** ** The process: environment, state, outcomes *)

Definition LOG_FILE : string := "update_ovh_ddns.log".
Definition IPV6_FILE : string := "ipv6addr.txt".
Definition VERSION : string := "1.0".

(** [subprocess.CREATE_NO_WINDOW] *)
Definition CREATE_NO_WINDOW : Z := 134217728.

Inductive exn :=
| CalledProcessError (cmd : list string) (returncode : Z)
| OSError (msg : string)
| ConfigError (msg : string).

(** How a computation ends: it returns, [sys.exit(code)] was called, or an
    exception is on its way up. *)
Inductive outcome (A : Type) :=
| Ret (a : A)
| Exit (code : Z)
| Raise (e : exn).
Arguments Ret {A} a.
Arguments Exit {A} code.
Arguments Raise {A} e.

(** What the process does to the world, in the order it does it. *)
Inductive event :=
| EvExists (path : string)
| EvRead (path : string)
| EvWrite (path : string) (text : string)
| EvPrint (line : string)
| EvRun (cmd : list string) (creationflags : Z).

(** What the operating system answers to [subprocess.run(cmd, ...)]: the
    child ran to completion with a return code and (decoded) standard
    output, or it could not be started at all (the binary is absent, ...),
    in which case [subprocess.run] raises an [OSError]. *)
Inductive process :=
| Completed (returncode : Z) (stdout : string)
| NotStarted (msg : string).

(** [ConfigParser.get(section, option)]: the value, or a
    [NoSectionError]/[NoOptionError] (which a [fallback=] absorbs), or any
    other error such as a failed interpolation (which it does not). *)
Inductive lookup :=
| Found (value : string)
| Missing (msg : string)
| Broken (msg : string).

(** [ConfigParser.read] on the text of a file. *)
Inductive parsed :=
| ParseError (msg : string)
| Parsed (get : string -> string -> lookup).

Record env := {
  argv : list string;                       (* sys.argv *)
  nt : bool;                                (* os.name == "nt" *)
  now : nat -> datetime;                    (* the k-th datetime.now() *)
  curl : list string -> process;            (* the outcome of a command *)
  configparser : string -> parsed;          (* the configparser library *)
  str_called_process_error : list string -> Z -> string
                                            (* str(e), e a CalledProcessError *)
}.

Record state := {
  fs : gmap string string;                  (* path -> content of the file *)
  trace : list event;                       (* oldest event first *)
  ticks : nat                               (* calls to datetime.now() so far *)
}.

(** The state a process starts in. *)
Definition boot (files : gmap string string) : state :=
  {| fs := files; trace := []; ticks := 0 |}.

Definition M (A : Type) : Type := env -> state -> outcome A * state.

Definition mret {A} (a : A) : M A := fun _ st => (Ret a, st).

Definition bind {A B} (m : M A) (k : A -> M B) : M B :=
  fun e st =>
    match m e st with
    | (Ret a, st') => k a e st'
    | (Exit c, st') => (Exit c, st')
    | (Raise x, st') => (Raise x, st')
    end.

Notation "x <- m ;; k" := (bind m (fun x => k))
  (at level 100, m at next level, right associativity).
Notation "m ;; k" := (bind m (fun _ => k))
  (at level 100, right associativity).

Definition ask : M env := fun e st => (Ret e, st).

Definition emit (ev : event) : M unit :=
  fun _ st =>
    (Ret tt, {| fs := fs st; trace := trace st ++ [ev]; ticks := ticks st |}).

(** [sys.exit(code)] *)
Definition sys_exit {A} (code : Z) : M A := fun _ st => (Exit code, st).

Definition raise {A} (x : exn) : M A := fun _ st => (Raise x, st).

(** [try: body / except <class> as e: handler(e)]. [SystemExit] is not an
    [Exception] and is never caught by the handlers of this script. *)
Definition try_except {A} (body : M A) (caught : exn -> bool)
    (handler : exn -> M A) : M A :=
  fun e st =>
    match body e st with
    | (Raise x, st') =>
        if caught x then handler x e st' else (Raise x, st')
    | r => r
    end.

(** The exit status the operating system sees: 0 when [main] returns, the
    argument of [sys.exit], 1 after an uncaught exception (the interpreter
    prints the traceback and exits with status 1). *)
Definition exit_status (o : outcome unit) : Z :=
  match o with
  | Ret _ => 0
  | Exit c => c
  | Raise _ => 1
  end.

(** [str(e)] *)
Definition str_exn (e : env) (x : exn) : string :=
  match x with
  | CalledProcessError cmd rc => str_called_process_error e cmd rc
  | OSError msg => msg
  | ConfigError msg => msg
  end.

(** *** Primitives *)

(** [os.path.exists(path)] *)
Definition path_exists (path : string) : M bool :=
  emit (EvExists path);;
  fun _ st => (Ret (bool_decide (is_Some (fs st !! path))), st).

(** [with open(path, "r", encoding="utf-8") as f: f.read()] *)
Definition read_text (path : string) : M string :=
  emit (EvRead path);;
  fun _ st =>
    match fs st !! path with
    | Some raw => (Ret (text_read raw), st)
    | None => (Raise (OSError "FileNotFoundError"), st)
    end.

(** [with open(path, "w", encoding="utf-8") as f: f.write(text)] *)
Definition write_text (path text : string) : M unit :=
  emit (EvWrite path text);;
  fun e st =>
    (Ret tt, {| fs := <[path := text_write (nt e) text]> (fs st);
                trace := trace st; ticks := ticks st |}).

(** [print(line)] *)
Definition print (line : string) : M unit := emit (EvPrint line).

(** [datetime.now()] *)
Definition datetime_now : M datetime :=
  fun e st =>
    (Ret (now e (ticks st)),
     {| fs := fs st; trace := trace st; ticks := S (ticks st) |}).

(** [subprocess.run(cmd, check=True, creationflags=...)], returning the
    captured standard output. *)
Definition subprocess_run (cmd : list string) : M string :=
  e <- ask;;
  emit (EvRun cmd (if nt e then CREATE_NO_WINDOW else 0));;
  match curl e cmd with
  | Completed rc out =>
      if (rc =? 0)%Z then mret out else raise (CalledProcessError cmd rc)
  | NotStarted msg => raise (OSError msg)
  end.

(** [config.read(path)] *)
Definition config_read (path : string) : M (string -> string -> lookup) :=
  text <- read_text path;;
  e <- ask;;
  match configparser e text with
  | Parsed get => mret get
  | ParseError msg => raise (ConfigError msg)
  end.

(** [config.get(section, option)] *)
Definition config_get (config : string -> string -> lookup)
    (section option : string) : M string :=
  match config section option with
  | Found v => mret v
  | Missing msg | Broken msg => raise (ConfigError msg)
  end.

(** [config.get(section, option, fallback=...)] *)
Definition config_get_fallback (config : string -> string -> lookup)
    (section option fallback : string) : M string :=
  match config section option with
  | Found v => mret v
  | Missing _ => mret fallback
  | Broken msg => raise (ConfigError msg)
  end.

(** ** The script *)

(** [VERBOSE = "--verbose" in sys.argv] *)
Definition VERBOSE (e : env) : bool := bool_decide ("--verbose" ∈ argv e).

Definition log (message : string) : M unit :=
  moment <- datetime_now;;
  let timestamp := strftime moment in
  let new_entry := "[" +:+ timestamp +:+ "] " +:+ message +:+ nl in
  there <- path_exists LOG_FILE;;
  lines <- (if there : bool
            then text <- read_text LOG_FILE;; mret (readlines text)
            else mret []);;
  let lines := lines ++ [new_entry] in
  let lines := last_n 10 lines in
  write_text LOG_FILE (joinlines lines);;
  e <- ask;;
  if VERBOSE e then print (strip new_entry) else mret tt.

(** The loaded configuration: username, password, hostname, url_lookup,
    ipv6. *)
Definition config : Type := string * string * string * string * string.

Definition read_config (config_file : string) : M config :=
  there <- path_exists config_file;;
  if negb there then
    log ("Error: Config file '" +:+ config_file +:+ "' not found.");;
    sys_exit 1
  else
    config <- config_read config_file;;
    try_except
      (username <- config_get config "ovh" "username";;
       password <- config_get config "ovh" "password";;
       hostname <- config_get config "ovh" "hostname";;
       url_lookup <- config_get_fallback config "ovh" "url_lookup"
                       "http://ipconfig.io";;
       ipv6 <- config_get_fallback config "ovh" "ipv6" "";;
       let ipv6 := strip ipv6 in
       mret (username, password, hostname, url_lookup, ipv6))
      (fun _ => true)
      (fun x =>
         e <- ask;;
         log ("Error reading config file: " +:+ str_exn e x);;
         sys_exit 1).

Definition is_CalledProcessError (x : exn) : bool :=
  match x with CalledProcessError _ _ => true | _ => false end.

Definition get_ipv6_from_site (url_lookup : string) : M string :=
  try_except
    (out <- subprocess_run ["curl"; "-6"; "-s"; url_lookup];;
     let ipv6 := strip out in
     log ("Obtained IPv6 from " +:+ url_lookup +:+ ": " +:+ ipv6);;
     mret ipv6)
    is_CalledProcessError
    (fun x =>
       e <- ask;;
       log ("Error fetching IPv6 address: " +:+ str_exn e x);;
       sys_exit 1).

Definition update_url (hostname ipv6 : string) : string :=
  "https://dns.eu.ovhapis.com/nic/update?system=dyndns&hostname="
  +:+ hostname +:+ "&myip=" +:+ ipv6.

Definition update_ovh_dns (username password hostname ipv6 : string)
    : M unit :=
  log ("Updating OVH DDNS for " +:+ hostname +:+ " -> " +:+ ipv6);;
  try_except
    (subprocess_run
       ["curl"; "-u"; username +:+ ":" +:+ password;
        update_url hostname ipv6];;
     log "OVH DDNS update complete.")
    is_CalledProcessError
    (fun x =>
       e <- ask;;
       log ("Failed to update OVH DDNS: " +:+ str_exn e x);;
       sys_exit 1).

Definition read_last_ipv6 : M (option string) :=
  there <- path_exists IPV6_FILE;;
  if there : bool then text <- read_text IPV6_FILE;; mret (Some (strip text))
  else mret None.

Definition write_current_ipv6 (ipv6 : string) : M unit :=
  write_text IPV6_FILE (strip ipv6).

(** Truth value of an optional string: [None] and [""] are false. *)
Definition truthy (v : option string) : bool :=
  match v with
  | Some (String _ _) => true
  | _ => false
  end.

Definition main : M unit :=
  e <- ask;;
  if bool_decide ("--version" ∈ argv e) then
    print ("update_ovh_ddns version " +:+ VERSION);;
    sys_exit 0
  else
    config <- read_config "config.txt";;
    let '(username, password, hostname, url_lookup, ipv6) := config in
    ipv6 <- (if String.eqb ipv6 "" then get_ipv6_from_site url_lookup
             else mret ipv6);;
    last_ipv6 <- read_last_ipv6;;
    if truthy last_ipv6 && bool_decide (Some ipv6 = last_ipv6) then
      log ("No IPv6 change detected (" +:+ ipv6 +:+ "). Skipping update.");;
      sys_exit 0
    else
      update_ovh_dns username password hostname ipv6;;
      write_current_ipv6 ipv6;;
      log ("Stored new IPv6 address: " +:+ ipv6).

(** ** Vocabulary of the specification *)

(** A complete line: it ends with its only line feed. *)
Fixpoint is_line (l : string) : bool :=
  match l with
  | "" => false
  | String c r => if Ascii.eqb c LF then String.eqb r "" else is_line r
  end.

(** What [readlines] can return: a complete line, or a non-empty rest
    without line feed. *)
Definition is_piece (l : string) : bool :=
  is_line l || (lacks LF l && negb (String.eqb l "")).

(** The entry [log] builds from the [k]-th reading of the clock. *)
Definition entry (e : env) (k : nat) (message : string) : string :=
  "[" +:+ strftime (now e k) +:+ "] " +:+ message +:+ nl.

(** The entries of consecutive [log] calls, the first one at tick [k]. *)
Fixpoint entries (e : env) (k : nat) (messages : list string) : list string :=
  match messages with
  | [] => []
  | m :: ms => entry e k m :: entries e (S k) ms
  end.

(** The lines a reader of the log file finds ([readlines] on the file as
    [log] itself opens it); none when the file is absent. *)
Definition log_lines (files : gmap string string) : list string :=
  match files !! LOG_FILE with
  | Some raw => readlines (text_read raw)
  | None => []
  end.

(** The text a reader of the log file finds. *)
Definition log_text (files : gmap string string) : option string :=
  text_read <$> files !! LOG_FILE.

(** One [log] call after the other. *)
Fixpoint log_each (messages : list string) : M unit :=
  match messages with
  | [] => mret tt
  | m :: ms => log m;; log_each ms
  end.

(** What one [log] call hands to [writelines]. *)
Definition log_written (e : env) (st : state) (message : string) : string :=
  joinlines (last_n 10 (log_lines (fs st) ++ [entry e (ticks st) message])).

(** What one [log] call does, in order. *)
Definition log_trace (e : env) (st : state) (message : string) : list event :=
  [EvExists LOG_FILE]
  ++ (if bool_decide (is_Some (fs st !! LOG_FILE)) then [EvRead LOG_FILE]
      else [])
  ++ [EvWrite LOG_FILE (log_written e st message)]
  ++ (if VERBOSE e then [EvPrint (strip (entry e (ticks st) message))]
      else []).

(** The state one [log] call leaves. *)
Definition logged (e : env) (st : state) (message : string) : state :=
  {| fs := <[LOG_FILE := text_write (nt e) (log_written e st message)]> (fs st);
     trace := trace st ++ log_trace e st message;
     ticks := S (ticks st) |}.

(** The state a sequence of [log] calls leaves. *)
Fixpoint logged_each (e : env) (st : state) (messages : list string) : state :=
  match messages with
  | [] => st
  | m :: ms => logged_each e (logged e st m) ms
  end.

(** Events by kind. *)

(** An access to the file at [path]: existence test, read or write. *)
Definition touches (path : string) (ev : event) : bool :=
  match ev with
  | EvExists p | EvRead p | EvWrite p _ => String.eqb p path
  | _ => false
  end.

Definition writes (path : string) (ev : event) : bool :=
  match ev with
  | EvWrite p _ => String.eqb p path
  | _ => false
  end.

(** An invocation of the external client. *)
Definition is_run (ev : event) : bool :=
  match ev with
  | EvRun _ _ => true
  | _ => false
  end.

(** The address lookup: [curl -6 ...]. *)
Definition is_lookup_request (ev : event) : bool :=
  match ev with
  | EvRun (c :: o :: _) _ => String.eqb c "curl" && String.eqb o "-6"
  | _ => false
  end.

(** The DDNS update: [curl -u ...]. *)
Definition is_update_request (ev : event) : bool :=
  match ev with
  | EvRun (c :: o :: _) _ => String.eqb c "curl" && String.eqb o "-u"
  | _ => false
  end.

(** An update request or a write of the address cache. *)
Definition update_or_store (ev : event) : bool :=
  is_update_request ev || writes IPV6_FILE ev.

(** A rewrite of the log file whose last entry carries [message]. *)
Definition logs (message : string) (ev : event) : bool :=
  match ev with
  | EvWrite p text =>
      String.eqb p LOG_FILE && ends_with ("] " +:+ message +:+ nl) text
  | _ => false
  end.

(** The events of [log]: accesses to the log file and console output. *)
Definition log_only (ev : event) : bool :=
  match ev with
  | EvExists p | EvRead p | EvWrite p _ => String.eqb p LOG_FILE
  | EvPrint _ => true
  | EvRun _ _ => false
  end.

(** The commands the script builds. *)
Definition lookup_cmd (url_lookup : string) : list string :=
  ["curl"; "-6"; "-s"; url_lookup].

Definition update_cmd (username password hostname ipv6 : string)
    : list string :=
  ["curl"; "-u"; username +:+ ":" +:+ password; update_url hostname ipv6].

Definition creationflags (e : env) : Z :=
  if nt e then CREATE_NO_WINDOW else 0.

Definition cfg_username (c : config) : string := c.1.1.1.1.
Definition cfg_password (c : config) : string := c.1.1.1.2.
Definition cfg_hostname (c : config) : string := c.1.1.2.
Definition cfg_url_lookup (c : config) : string := c.1.2.
Definition cfg_ipv6 (c : config) : string := c.2.

(** [main] in two halves. The first runs up to the point where the current
    address is known (lines 114 to 122) ... *)
Definition resolve_current : M (config * string) :=
  e <- ask;;
  if bool_decide ("--version" ∈ argv e) then
    print ("update_ovh_ddns version " +:+ VERSION);;
    sys_exit 0
  else
    config <- read_config "config.txt";;
    ipv6 <- (if String.eqb (cfg_ipv6 config) ""
             then get_ipv6_from_site (cfg_url_lookup config)
             else mret (cfg_ipv6 config));;
    mret (config, ipv6).

(** ... the second compares it with the cache and acts (lines 124 to 132):
    it skips (lines 127 and 128) or updates and stores (lines 130 to 132). *)
Definition skip_update (ipv6 : string) : M unit :=
  log ("No IPv6 change detected (" +:+ ipv6 +:+ "). Skipping update.");;
  sys_exit 0.

Definition update_and_store (c : config) (ipv6 : string) : M unit :=
  update_ovh_dns (cfg_username c) (cfg_password c) (cfg_hostname c) ipv6;;
  write_current_ipv6 ipv6;;
  log ("Stored new IPv6 address: " +:+ ipv6).

Definition compare_and_update (c : config) (ipv6 : string) : M unit :=
  last_ipv6 <- read_last_ipv6;;
  if truthy last_ipv6 && bool_decide (Some ipv6 = last_ipv6)
  then skip_update ipv6
  else update_and_store c ipv6.

(** The state right after [subprocess.run] started [cmd]. *)
Definition ran (e : env) (st : state) (cmd : list string) : state :=
  {| fs := fs st; trace := trace st ++ [EvRun cmd (creationflags e)];
     ticks := ticks st |}.

(** The state right after the address cache was looked at. *)
Definition looked (st : state) : state :=
  {| fs := fs st;
     trace := trace st ++ EvExists IPV6_FILE ::
                (if bool_decide (is_Some (fs st !! IPV6_FILE))
                 then [EvRead IPV6_FILE] else []);
     ticks := ticks st |}.

(** The state right after the address cache was overwritten. *)
Definition stored (e : env) (st : state) (ipv6 : string) : state :=
  {| fs := <[IPV6_FILE := text_write (nt e) (strip ipv6)]> (fs st);
     trace := trace st ++ [EvWrite IPV6_FILE (strip ipv6)];
     ticks := ticks st |}.

(** The last known address as the cache file gives it. *)
Definition last_known (files : gmap string string) : option string :=
  (λ raw, strip (text_read raw)) <$> files !! IPV6_FILE.

(** The address resolver on a loaded configuration (lines 121 and 122). *)
Definition resolve_address (c : config) : M string :=
  if String.eqb (cfg_ipv6 c) "" then get_ipv6_from_site (cfg_url_lookup c)
  else mret (cfg_ipv6 c).

(** The same environment with another answer of the configuration parser
    for the option [ipv6] of the section [ovh]. *)
Definition with_ipv6 (answer : lookup) (e : env) : env :=
  {| argv := argv e; nt := nt e; now := now e; curl := curl e;
     configparser := λ text,
       match configparser e text with
       | Parsed get =>
           Parsed (λ section option,
             if String.eqb section "ovh" && String.eqb option "ipv6"
             then answer else get section option)
       | ParseError msg => ParseError msg
       end;
     str_called_process_error := str_called_process_error e |}.

(** A computation that performs only events allowed by [P] and changes only
    files that [P] allows it to write. *)
Definition within (P : event → bool) {A} (m : M A) : Prop :=
  ∀ e st,
    (∃ evs, trace (m e st).2 = trace st ++ evs
            ∧ Forall (λ ev, P ev = true) evs)
    ∧ (∀ p, (∀ text, P (EvWrite p text) = false) →
            fs (m e st).2 !! p = fs st !! p).

(** ** Sample worlds

    Concrete environments and files on which the script is run below. *)

Definition sample_time : datetime :=
  {| year := 2024; month := 5; day := 17; hour := 8; minute := 30;
     second := 0 |}.

(** A parsed [config.txt] with the three required options; the answer for
    [ipv6] is a parameter, [url_lookup] is left to its fallback. *)
Definition sample_config (ipv6 : lookup) (section option : string) : lookup :=
  if negb (String.eqb section "ovh") then Missing "No section" else
  if String.eqb option "username" then Found "alice" else
  if String.eqb option "password" then Found "secret" else
  if String.eqb option "hostname" then Found "home.example.org" else
  if String.eqb option "ipv6" then ipv6 else
  Missing "No option".

Definition sample_env (args : list string) (ipv6 : lookup)
    (run : list string → process) : env :=
  {| argv := args;
     nt := false;
     now := λ _, sample_time;
     curl := run;
     configparser := λ _, Parsed (sample_config ipv6);
     str_called_process_error :=
       λ _ _, "Command returned non-zero exit status." |}.

Definition sample_files (cache : option string) : gmap string string :=
  match cache with
  | Some text => {[ "config.txt" := "[ovh]"; IPV6_FILE := text ]}
  | None => {[ "config.txt" := "[ovh]" ]}
  end.

(** A client for which every command succeeds and prints [out]. *)
Definition answers (out : string) (cmd : list string) : process :=
  Completed 0 out.

(** A client that answers the address lookup ([curl -6 ...]) one way and
    every other command another way. *)
Definition client (lookup update : process) (cmd : list string) : process :=
  match cmd with
  | _ :: o :: _ => if String.eqb o "-6" then lookup else update
  | _ => update
  end.

(** What [read_config] loads from [sample_config] without static address. *)
Definition sample_loaded : config :=
  ("alice", "secret", "home.example.org", "http://ipconfig.io", "").

(** The lookup gives a new address and the update is refused. *)
Definition refused_env : env :=
  sample_env ["update_ovh_ddns.py"] (Missing "")
    (client (Completed 0 ("2001:db8::1" +:+ nl)) (Completed 6 "")).

(** The lookup gives an empty answer, every command succeeds. *)
Definition silent_env : env :=
  sample_env ["update_ovh_ddns.py"] (Missing "") (answers "").

(** The address is configured, every command succeeds. *)
Definition static_env : env :=
  sample_env ["update_ovh_ddns.py"] (Found " 2001:db8::9 ") (answers "").

(** The client binary is absent. *)
Definition no_curl_env : env :=
  sample_env ["update_ovh_ddns.py"] (Missing "")
    (λ _, NotStarted "[Errno 2] No such file or directory: 'curl'").

(** Fifteen one-line messages, and fifteen messages of two lines each. *)
Definition fifteen_lines : list string :=
  (λ k, "run " +:+ decimal k) <$> seq 1 15.

Definition fifteen_pairs : list string :=
  replicate 15 ("first" +:+ nl +:+ "second").

(** ** Vocabulary for the loader, the console and the exit status *)

(** The answer of the parser, or the fallback when it is not a value. *)
Definition or_else (answer : lookup) (fallback : string) : string :=
  match answer with
  | Found v => v
  | _ => fallback
  end.

(** The message of the first option, in the order [read_config] asks for
    them, whose lookup raises: a required option that is missing or broken,
    an optional one that is broken. *)
Definition config_error (get : string → string → lookup) : option string :=
  match get "ovh" "username" with
  | Missing m | Broken m => Some m
  | Found _ =>
  match get "ovh" "password" with
  | Missing m | Broken m => Some m
  | Found _ =>
  match get "ovh" "hostname" with
  | Missing m | Broken m => Some m
  | Found _ =>
  match get "ovh" "url_lookup" with
  | Broken m => Some m
  | _ =>
  match get "ovh" "ipv6" with
  | Broken m => Some m
  | _ => None
  end end end end end.

(** The configuration a parsed file stands for. *)
Definition config_value (get : string → string → lookup) : config :=
  (or_else (get "ovh" "username") "", or_else (get "ovh" "password") "",
   or_else (get "ovh" "hostname") "",
   or_else (get "ovh" "url_lookup") "http://ipconfig.io",
   strip (or_else (get "ovh" "ipv6") "")).

(** The state right after the file at [path] was found and read. *)
Definition opened (st : state) (path : string) : state :=
  {| fs := fs st; trace := trace st ++ [EvExists path; EvRead path];
     ticks := ticks st |}.


(** A write, if any, goes to the log file or to the address cache. *)
Definition writes_own_files (ev : event) : bool :=
  match ev with
  | EvWrite p _ => String.eqb p LOG_FILE || String.eqb p IPV6_FILE
  | _ => true
  end.

Definition zero_or_one (code : Z) : bool := (code =? 0)%Z || (code =? 1)%Z.

(** In every environment that satisfies [Q], the computation performs only
    events allowed by [P] and calls [sys.exit] only with a code allowed by
    [X]. *)
Definition behaves (Q : env → Prop) (P : event → bool) (X : Z → bool)
    {A} (m : M A) : Prop :=
  ∀ e st, Q e →
    (∃ evs, trace (m e st).2 = trace st ++ evs
            ∧ Forall (λ ev, P ev = true) evs)
    ∧ (∀ code, (m e st).1 = Exit code → X code = true).

(** A parsed file without [username], and one whose [url_lookup] is given. *)
Definition nameless_config (section option : string) : lookup :=
  if String.eqb option "username" then Missing "No option 'username'"
  else sample_config (Missing "") section option.

Definition nameless_env : env :=
  {| argv := ["update_ovh_ddns.py"]; nt := false; now := λ _, sample_time;
     curl := answers "";
     configparser := λ _, Parsed nameless_config;
     str_called_process_error := λ _ _, "" |}.

(** A configuration file the parser rejects. *)
Definition garbled_env : env :=
  {| argv := ["update_ovh_ddns.py"]; nt := false; now := λ _, sample_time;
     curl := answers "";
     configparser := λ _, ParseError "File contains no section headers.";
     str_called_process_error := λ _ _, "" |}.

(** Every command succeeds, the lookup answers [2001:db8::1]. *)
Definition working_env : env :=
  sample_env ["update_ovh_ddns.py"] (Missing "")
    (client (Completed 0 ("2001:db8::1" +:+ nl)) (Completed 0 "")).

(** The lookup works, the client cannot be started for the update. *)
Definition half_env : env :=
  sample_env ["update_ovh_ddns.py"] (Missing "")
    (client (Completed 0 ("2001:db8::1" +:+ nl))
       (NotStarted "[Errno 12] Cannot allocate memory")).

(** A log file whose only line lacks its line feed. *)
Definition unfinished_log : gmap string string :=
  {[ LOG_FILE := "half a line" ]}.

(** * Properties *)

(** ** [strip] *)

Section strip_facts.

Lemma rstrip_idem s : rstrip (rstrip s) = rstrip s.
Proof.
  induction s as [|c s IH]; [done|].
  cbn [rstrip]. destruct (rstrip s) as [|a r] eqn:E.
  - destruct (is_space c) eqn:Hc; [done|]. cbn. by rewrite Hc.
  - change (rstrip (String c (String a r)))
      with (match rstrip (String a r) with
            | "" => if is_space c then "" else String c ""
            | String _ _ as r' => String c r'
            end).
    by rewrite IH.
Qed.

Lemma rstrip_keeps_head c s :
  is_space c = false → ∃ r, rstrip (String c s) = String c r.
Proof.
  intros Hc. cbn [rstrip]. destruct (rstrip s); rewrite ?Hc; eauto.
Qed.

Lemma lstrip_head s :
  lstrip s = "" ∨ ∃ c r, lstrip s = String c r ∧ is_space c = false.
Proof.
  induction s as [|c s IH]; [by left|].
  cbn. destruct (is_space c) eqn:Hc; [done|]. right. eauto.
Qed.

Lemma lstrip_strip s : lstrip (strip s) = strip s.
Proof.
  unfold strip. destruct (lstrip_head s) as [->|(c & r & -> & Hc)]; [done|].
  destruct (rstrip_keeps_head c r Hc) as [r' ->]. cbn. by rewrite Hc.
Qed.

Lemma strip_idem s : strip (strip s) = strip s.
Proof.
  unfold strip at 1. rewrite lstrip_strip. unfold strip. apply rstrip_idem.
Qed.

Lemma lstrip_all_space s : all_space s = true → lstrip s = "".
Proof.
  induction s as [|c s IH]; [done|]. cbn.
  intros [Hc Hs]%andb_prop. rewrite Hc. auto.
Qed.

Lemma strip_all_space s : all_space s = true → strip s = "".
Proof. intros H. unfold strip. by rewrite lstrip_all_space. Qed.

Lemma lacks_lstrip c s : lacks c s = true → lacks c (lstrip s) = true.
Proof.
  induction s as [|d s IH]; [done|]. cbn.
  intros [Hd Hs]%andb_prop. destruct (is_space d); [auto|].
  cbn. by rewrite Hd, Hs.
Qed.

Lemma lacks_rstrip c s : lacks c s = true → lacks c (rstrip s) = true.
Proof.
  induction s as [|d s IH]; [done|]. cbn [lacks rstrip].
  intros [Hd Hs]%andb_prop. specialize (IH Hs).
  destruct (rstrip s) as [|a r].
  - destruct (is_space d); [done|]. cbn. by rewrite Hd.
  - cbn [lacks] in *. by rewrite Hd, IH.
Qed.

Lemma lacks_strip c s : lacks c s = true → lacks c (strip s) = true.
Proof. intros H. by apply lacks_rstrip, lacks_lstrip. Qed.

End strip_facts.

(** ** The text layer *)

Section text_facts.

Lemma lacks_app c a b :
  lacks c (a +:+ b) = lacks c a && lacks c b.
Proof.
  induction a as [|d a IH]; [done|]. simpl. rewrite IH. by rewrite andb_assoc.
Qed.

Lemma single_line_app a b :
  single_line (a +:+ b) = single_line a && single_line b.
Proof.
  unfold single_line. rewrite !lacks_app.
  destruct (lacks LF a), (lacks LF b), (lacks CR a), (lacks CR b); done.
Qed.

Lemma text_read_cons c rest :
  text_read (String c rest) =
  if Ascii.eqb c CR then
    match rest with
    | String d rest' =>
        if Ascii.eqb d LF then String LF (text_read rest')
        else String LF (text_read rest)
    | "" => String LF ""
    end
  else String c (text_read rest).
Proof. by destruct rest. Qed.

Lemma text_read_lacks_CR_step raw :
  lacks CR (text_read raw) = true
  ∧ ∀ c, lacks CR (text_read (String c raw)) = true.
Proof.
  induction raw as [|d r [IH1 IH2]].
  - split; [done|]. intros c. cbn. destruct (Ascii.eqb c CR) eqn:E; [done|].
    cbn. by rewrite E.
  - split; [apply IH2|]. intros c.
    rewrite text_read_cons. destruct (Ascii.eqb c CR) eqn:E.
    + destruct (Ascii.eqb d LF).
      * change (lacks CR (String LF (text_read r)))
          with (lacks CR (text_read r)). apply IH1.
      * change (lacks CR (String LF (text_read (String d r))))
          with (lacks CR (text_read (String d r))). apply IH2.
    + change (lacks CR (String c (text_read (String d r))))
        with (negb (Ascii.eqb c CR) && lacks CR (text_read (String d r))).
      by rewrite E, (IH2 d).
Qed.

Lemma text_read_lacks_CR raw : lacks CR (text_read raw) = true.
Proof. apply text_read_lacks_CR_step. Qed.

Lemma text_read_id s : lacks CR s = true → text_read s = s.
Proof.
  induction s as [|c s IH]; [done|]. cbn.
  intros [Hc Hs]%andb_prop. apply negb_true_iff in Hc. rewrite Hc.
  by rewrite IH.
Qed.

Lemma text_write_posix s : text_write false s = s.
Proof. induction s as [|c s IH]; [done|]. cbn. by rewrite IH. Qed.

Lemma text_read_write nt s :
  lacks CR s = true → text_read (text_write nt s) = s.
Proof.
  destruct nt; [|intros; rewrite text_write_posix; by apply text_read_id].
  induction s as [|c s IH]; [done|]. cbn [lacks text_write andb].
  intros [Hc Hs]%andb_prop. apply negb_true_iff in Hc.
  destruct (Ascii.eqb c LF) eqn:E.
  - apply Ascii.eqb_eq in E as ->. cbn. by rewrite IH.
  - cbn [text_read]. rewrite Hc. by rewrite IH.
Qed.

End text_facts.

(** ** [readlines] and [writelines] *)

Section line_facts.

Lemma is_line_readlines l s :
  is_line l = true → readlines (l +:+ s) = l :: readlines s.
Proof.
  induction l as [|c r IH]; [done|]. simpl.
  destruct (Ascii.eqb c LF) eqn:E.
  - intros ->%String.eqb_eq. done.
  - intros Hr. by rewrite (IH Hr).
Qed.

Lemma readlines_cons c rest :
  readlines (String c rest) =
  if Ascii.eqb c LF then String c "" :: readlines rest
  else match readlines rest with
       | [] => [String c ""]
       | l :: ls => String c l :: ls
       end.
Proof. done. Qed.

Lemma rest_readlines t s :
  lacks LF t = true → t ≠ "" →
  readlines (t +:+ s) =
  match readlines s with
  | [] => [t]
  | l :: ls => (t +:+ l) :: ls
  end.
Proof.
  induction t as [|c r IH]; [done|]. intros H _.
  change (String c r +:+ s) with (String c (r +:+ s)).
  rewrite readlines_cons.
  apply andb_prop in H as [Hc Hr]. apply negb_true_iff in Hc. rewrite Hc.
  destruct r as [|d r].
  - change ("" +:+ s) with s. by destruct (readlines s).
  - rewrite (IH Hr) by done. by destruct (readlines s).
Qed.

Lemma readlines_nil s : readlines s = [] → s = "".
Proof.
  destruct s as [|c s]; [done|]. simpl.
  destruct (Ascii.eqb c LF); [done|]. by destruct (readlines s).
Qed.

Lemma is_line_nonempty l : is_line l = true → l ≠ "".
Proof. by destruct l. Qed.

Lemma is_line_prepend t l :
  lacks LF t = true → is_line l = true → is_line (t +:+ l) = true.
Proof.
  induction t as [|c r IH]; [done|]. simpl.
  intros [Hc Hr]%andb_prop Hl. apply negb_true_iff in Hc. rewrite Hc. auto.
Qed.

Lemma is_piece_cases l :
  is_piece l = true →
  is_line l = true ∨ (lacks LF l = true ∧ l ≠ "").
Proof.
  unfold is_piece. intros [H|[H1 H2]%andb_prop]%orb_prop; [by left|].
  right. split; [done|]. intros ->. done.
Qed.

Lemma is_line_piece l : is_line l = true → is_piece l = true.
Proof. unfold is_piece. by intros ->. Qed.

Lemma joinlines_cons l ls : joinlines (l :: ls) = l +:+ joinlines ls.
Proof. done. Qed.

Lemma append_assoc (a b c : string) : a +:+ (b +:+ c) = (a +:+ b) +:+ c.
Proof.
  induction a as [|d a IH]; [done|].
  change (String d (a +:+ (b +:+ c)) = String d ((a +:+ b) +:+ c)).
  by rewrite IH.
Qed.

Lemma joinlines_app a b : joinlines (a ++ b) = joinlines a +:+ joinlines b.
Proof.
  induction a as [|l a IH]; [done|].
  change ((l :: a) ++ b) with (l :: (a ++ b)). rewrite !joinlines_cons, IH.
  apply append_assoc.
Qed.

(** Writing complete lines and reading them back gives the same lines. *)
Lemma readlines_joinlines ls :
  Forall (λ l, is_line l = true) ls → readlines (joinlines ls) = ls.
Proof.
  induction 1 as [|l ls Hl _ IH]; [done|].
  rewrite joinlines_cons, is_line_readlines by done. by rewrite IH.
Qed.

(** Reading back what was written never yields more items than were
    written: a rest without line feed is glued to what follows it. *)
Lemma readlines_joinlines_length ls :
  Forall (λ l, is_piece l = true) ls →
  length (readlines (joinlines ls)) ≤ length ls.
Proof.
  induction 1 as [|l ls Hl _ IH]; [done|].
  rewrite joinlines_cons.
  destruct (is_piece_cases l Hl) as [Hline|[Hrest Hne]].
  - rewrite is_line_readlines by done. simpl. lia.
  - rewrite rest_readlines by done.
    destruct (readlines (joinlines ls)); simpl in *; lia.
Qed.

(** When the last item written is a complete line, everything read back is
    complete lines. *)
Lemma readlines_joinlines_lines ls x :
  Forall (λ l, is_piece l = true) ls → is_line x = true →
  Forall (λ l, is_line l = true) (readlines (joinlines (ls ++ [x])))
  ∧ readlines (joinlines (ls ++ [x])) ≠ [].
Proof.
  intros Hls Hx. induction Hls as [|l ls Hl _ [IH1 IH2]].
  - change ([] ++ [x]) with [x].
    rewrite joinlines_cons, is_line_readlines by done.
    split; [by repeat constructor|done].
  - change ((l :: ls) ++ [x]) with (l :: (ls ++ [x])).
    rewrite joinlines_cons.
    destruct (is_piece_cases l Hl) as [Hline|[Hrest Hne]].
    + rewrite is_line_readlines by done. split; [by constructor|done].
    + rewrite rest_readlines by done.
      destruct (readlines (joinlines (ls ++ [x]))) as [|y ys]; [done|].
      apply Forall_cons in IH1 as [Hy Hys].
      split; [|done]. constructor; [by apply is_line_prepend|done].
Qed.

Lemma readlines_pieces s : Forall (λ l, is_piece l = true) (readlines s).
Proof.
  induction s as [|c s IH]; [constructor|]. simpl.
  destruct (Ascii.eqb c LF) eqn:E.
  - constructor; [|done]. unfold is_piece. simpl. by rewrite E.
  - destruct (readlines s) as [|l ls].
    + repeat constructor. unfold is_piece. simpl. by rewrite E.
    + apply Forall_cons in IH as [Hl Hls]. constructor; [|done].
      unfold is_piece in *. simpl. rewrite E. simpl.
      destruct (is_line l); [done|]. simpl in *.
      apply andb_prop in Hl as [-> _]. done.
Qed.

Lemma readlines_lacks c s :
  lacks c s = true → Forall (λ l, lacks c l = true) (readlines s).
Proof.
  induction s as [|d s IH]; [constructor|]. simpl.
  intros [Hd Hs]%andb_prop. specialize (IH Hs).
  destruct (Ascii.eqb d LF).
  - constructor; [|done]. simpl. by rewrite Hd.
  - destruct (readlines s) as [|l ls].
    + repeat constructor. simpl. by rewrite Hd.
    + apply Forall_cons in IH as [Hl Hls]. constructor; [|done].
      simpl. by rewrite Hd, Hl.
Qed.

Lemma joinlines_lacks c ls :
  Forall (λ l, lacks c l = true) ls → lacks c (joinlines ls) = true.
Proof.
  induction 1 as [|l ls Hl _ IH]; [done|].
  by rewrite joinlines_cons, lacks_app, Hl, IH.
Qed.

End line_facts.

(** ** [lines[-n:]] *)

Section last_n_facts.
Context {A : Type}.
Implicit Types l : list A.

Lemma last_n_length n l : length (last_n n l) ≤ n.
Proof. unfold last_n. rewrite length_drop. lia. Qed.

Lemma last_n_all n l : length l ≤ n → last_n n l = l.
Proof.
  intros H. unfold last_n. replace (length l - n) with 0 by lia. done.
Qed.

Lemma last_n_snoc n l x : last_n (S n) (l ++ [x]) = last_n n l ++ [x].
Proof.
  unfold last_n. rewrite length_app. simpl.
  replace (length l + 1 - S n) with (length l - n) by lia.
  rewrite drop_app_le by lia. done.
Qed.

Lemma last_n_app_long n l k : n ≤ length k → last_n n (l ++ k) = last_n n k.
Proof.
  intros H. unfold last_n. rewrite length_app.
  replace (length l + length k - n) with (length l + (length k - n)) by lia.
  by rewrite drop_app_add'.
Qed.

Lemma last_n_last_n_app n l k : last_n n (last_n n l ++ k) = last_n n (l ++ k).
Proof.
  unfold last_n. rewrite !length_app, length_drop.
  destruct (decide (length l ≤ n)) as [Hle|Hgt].
  - replace (length l - n) with 0 by lia. simpl.
    by replace (length l - 0) with (length l) by lia.
  - replace (length l - (length l - n)) with n by lia.
    destruct (decide (n ≤ length k)) as [Hk|Hk].
    + replace (n + length k - n) with (n + (length k - n)) by lia.
      replace (length l + length k - n) with (length l + (length k - n))
        by lia.
      rewrite (drop_app_add' _ _ (length l)) by done.
      rewrite (drop_app_add' _ _ n); [done|]. rewrite length_drop. lia.
    + rewrite !drop_app_le by (rewrite ?length_drop; lia).
      rewrite drop_drop. f_equal. f_equal. lia.
Qed.

Lemma Forall_last_n (P : A → Prop) n l : Forall P l → Forall P (last_n n l).
Proof. apply Forall_drop. Qed.

End last_n_facts.

(** ** The clock *)

Section clock_facts.

Lemma digits_lack c d :
  c = LF ∨ c = CR → lacks c (NilEmpty.string_of_uint d) = true.
Proof. intros [->| ->]; induction d; by simpl. Qed.

Lemma decimal_lacks c n : c = LF ∨ c = CR → lacks c (decimal n) = true.
Proof.
  intros Hc. unfold decimal, NilZero.string_of_uint.
  destruct (Nat.to_uint n) eqn:E; try (rewrite <- E); try apply digits_lack;
    try done.
  by destruct Hc as [->| ->].
Qed.

Lemma zeros_lack c n : c = LF ∨ c = CR → lacks c (zeros n) = true.
Proof. intros [->| ->]; induction n; by simpl. Qed.

Lemma padded_lacks c w n : c = LF ∨ c = CR → lacks c (padded w n) = true.
Proof.
  intros Hc. unfold padded. by rewrite lacks_app, zeros_lack, decimal_lacks.
Qed.

Lemma strftime_lacks c t : c = LF ∨ c = CR → lacks c (strftime t) = true.
Proof.
  intros Hc. unfold strftime. rewrite !lacks_app, !padded_lacks by done.
  by destruct Hc as [->| ->].
Qed.

Lemma entry_lacks_CR e k m :
  lacks CR m = true → lacks CR (entry e k m) = true.
Proof.
  intros Hm. unfold entry. rewrite !lacks_app, strftime_lacks, Hm by auto.
  done.
Qed.

(** The entry of a one-line message is one complete line. *)
Lemma entry_is_line e k m : lacks LF m = true → is_line (entry e k m) = true.
Proof.
  intros Hm. unfold entry.
  change ("[" +:+ strftime (now e k) +:+ "] " +:+ m +:+ nl)
    with (String "[" (strftime (now e k) +:+ "] " +:+ m +:+ nl)).
  rewrite !append_assoc. apply is_line_prepend; [|done].
  rewrite !lacks_app, strftime_lacks, Hm by auto. done.
Qed.

End clock_facts.

(** ** One [log] call *)

Section log_facts.

(** [log] always returns, and leaves the state [logged]. *)
Lemma log_run message e st : log message e st = (Ret tt, logged e st message).
Proof.
  unfold log, logged, log_trace, log_written, log_lines, datetime_now,
    path_exists, read_text, write_text, print, entry.
  unfold bind, emit, ask, mret. cbn [fs trace ticks].
  destruct (fs st !! LOG_FILE) as [raw|] eqn:E.
  - rewrite bool_decide_true by eauto. cbn [fs trace ticks]. rewrite E.
    destruct (VERBOSE e); cbn [fs trace ticks];
      do 2 f_equal; by rewrite <- ?app_assoc.
  - rewrite bool_decide_false by (by intros [? ?]). cbn [fs trace ticks].
    destruct (VERBOSE e); cbn [fs trace ticks];
      do 2 f_equal; by rewrite <- ?app_assoc.
Qed.

Lemma log_trace_only e st m :
  Forall (λ ev, log_only ev = true) (log_trace e st m).
Proof.
  unfold log_trace.
  destruct (bool_decide _), (VERBOSE e); by repeat constructor.
Qed.

Lemma logged_fs_other e st m p :
  p ≠ LOG_FILE → fs (logged e st m) !! p = fs st !! p.
Proof. intros H. cbn. by rewrite lookup_insert_ne. Qed.

Lemma append_nil_r (s : string) : s +:+ "" = s.
Proof.
  induction s as [|c s IH]; [done|].
  change (String c (s +:+ "") = String c s). by rewrite IH.
Qed.

Lemma ends_with_refl s : ends_with s s = true.
Proof. destruct s; cbn [ends_with]; by rewrite String.eqb_refl. Qed.

Lemma ends_with_append t s : ends_with s (t +:+ s) = true.
Proof.
  induction t as [|c t IH]; [apply ends_with_refl|].
  change (String c t +:+ s) with (String c (t +:+ s)).
  cbn [ends_with]. rewrite IH. apply orb_true_r.
Qed.

(** What [log] writes ends with the entry of its message. *)
Lemma log_written_ends e st m :
  ends_with ("] " +:+ m +:+ nl) (log_written e st m) = true.
Proof.
  unfold log_written. rewrite (last_n_snoc 9), joinlines_app.
  rewrite joinlines_cons. change (joinlines []) with "".
  rewrite append_nil_r. unfold entry.
  rewrite (append_assoc (joinlines _) "[").
  rewrite (append_assoc _ (strftime _)). apply ends_with_append.
Qed.

Lemma log_trace_logs e st m : existsb (logs m) (log_trace e st m) = true.
Proof.
  unfold log_trace. rewrite !existsb_app. cbn [existsb logs].
  rewrite String.eqb_refl, log_written_ends. cbn.
  by destruct (bool_decide _).
Qed.

End log_facts.

(** ** The log file across [log] calls *)

Section log_file_facts.

Lemma log_lines_pieces files :
  Forall (λ l, is_piece l = true) (log_lines files).
Proof.
  unfold log_lines. destruct (files !! LOG_FILE); [|constructor].
  apply readlines_pieces.
Qed.

Lemma log_lines_lack_CR files :
  Forall (λ l, lacks CR l = true) (log_lines files).
Proof.
  unfold log_lines. destruct (files !! LOG_FILE); [|constructor].
  apply readlines_lacks, text_read_lacks_CR.
Qed.

Lemma log_written_lacks_CR e st m :
  lacks CR m = true → lacks CR (log_written e st m) = true.
Proof.
  intros Hm. apply joinlines_lacks, Forall_last_n, Forall_app. split.
  - apply log_lines_lack_CR.
  - repeat constructor. by apply entry_lacks_CR.
Qed.

(** After a [log] call with a message free of carriage returns, a reader
    finds what was handed to [writelines], on either kind of system. *)
Lemma logged_lines e st m :
  lacks CR m = true →
  log_lines (fs (logged e st m)) = readlines (log_written e st m).
Proof.
  intros Hm. unfold log_lines, logged. cbn [fs].
  rewrite lookup_insert_eq.
  by rewrite text_read_write by by apply log_written_lacks_CR.
Qed.

Lemma single_line_parts m :
  single_line m = true → lacks LF m = true ∧ lacks CR m = true.
Proof. unfold single_line. by intros [? ?]%andb_prop. Qed.

Lemma logged_bound e st m :
  single_line m = true → length (log_lines (fs (logged e st m))) ≤ 10.
Proof.
  intros [HLF HCR]%single_line_parts. rewrite logged_lines by done.
  unfold log_written.
  etrans; [apply readlines_joinlines_length|apply last_n_length].
  apply Forall_last_n, Forall_app. split; [apply log_lines_pieces|].
  repeat constructor. by apply is_line_piece, entry_is_line.
Qed.

Lemma logged_complete e st m :
  single_line m = true →
  Forall (λ l, is_line l = true) (log_lines (fs (logged e st m))).
Proof.
  intros [HLF HCR]%single_line_parts. rewrite logged_lines by done.
  unfold log_written. rewrite (last_n_snoc 9).
  apply readlines_joinlines_lines; [|by apply entry_is_line].
  apply Forall_last_n, log_lines_pieces.
Qed.

Lemma logged_step e st m :
  single_line m = true →
  Forall (λ l, is_line l = true) (log_lines (fs st)) →
  log_lines (fs (logged e st m))
  = last_n 10 (log_lines (fs st) ++ [entry e (ticks st) m]).
Proof.
  intros [HLF HCR]%single_line_parts Hwf. rewrite logged_lines by done.
  unfold log_written. apply readlines_joinlines, Forall_last_n, Forall_app.
  split; [done|]. repeat constructor. by apply entry_is_line.
Qed.

Lemma log_each_run ms e st : log_each ms e st = (Ret tt, logged_each e st ms).
Proof.
  revert st. induction ms as [|m ms IH]; intros st; [done|].
  cbn [log_each logged_each]. unfold bind. by rewrite log_run, IH.
Qed.

Lemma logged_each_snoc e st ms m :
  logged_each e st (ms ++ [m]) = logged e (logged_each e st ms) m.
Proof.
  revert st. induction ms as [|m' ms IH]; intros st; [done|].
  cbn [logged_each app]. apply IH.
Qed.

Lemma logged_each_complete e st ms :
  Forall (λ m, single_line m = true) ms →
  Forall (λ l, is_line l = true) (log_lines (fs st)) →
  length (log_lines (fs st)) ≤ 10 →
  log_lines (fs (logged_each e st ms))
  = last_n 10 (log_lines (fs st) ++ entries e (ticks st) ms).
Proof.
  intros Hms. revert st. induction Hms as [|m ms Hm _ IH]; intros st Hwf Hlen.
  - cbn [logged_each entries]. rewrite app_nil_r. by rewrite last_n_all.
  - cbn [logged_each entries].
    rewrite IH by (by apply logged_complete || by apply logged_bound).
    rewrite logged_step by done. cbn [ticks logged].
    rewrite last_n_last_n_app. by rewrite <- app_assoc.
Qed.

Lemma entries_length e k ms : length (entries e k ms) = length ms.
Proof. revert k. induction ms as [|m ms IH]; intros k; cbn; auto. Qed.

End log_file_facts.

(** * The bounded log *)

Section bounded_log.

(** C2, as amended. Every [log] call returns and leaves the state [logged]:
    it reads the lines of the file, appends its entry, keeps the last 10
    items and rewrites the whole file. For every initial log file and every
    sequence of [log] calls whose messages hold no line break (neither line
    feed nor carriage return): after each call a reader of the log file
    finds at most 10 lines, and after 11 or more calls (15 in particular) it
    finds exactly the entries of the last 10 calls, oldest first. *)
Theorem log_keeps_last_ten (e : env) (st : state) (messages : list string) :
  Forall (λ m, single_line m = true) messages →
  (∀ m st0, log m e st0 = (Ret tt, logged e st0 m))
  ∧ (∀ n, 0 < n ≤ length messages →
     (log_each (take n messages) e st).1 = Ret tt
     ∧ length (log_lines (fs (log_each (take n messages) e st).2)) ≤ 10)
  ∧ (10 < length messages →
     (log_each messages e st).1 = Ret tt
     ∧ log_lines (fs (log_each messages e st).2)
       = last_n 10 (entries e (ticks st) messages)).
Proof.
  intros Hms. split; [intros; apply log_run|]. split.
  - intros n Hn. rewrite log_each_run. split; [done|]. cbn [snd].
    assert (Hlen : length (take n messages) = n) by (apply length_take_le; lia).
    assert (Hpre : Forall (λ m, single_line m = true) (take n messages))
      by by apply Forall_take.
    destruct (take n messages) as [|m0 ms0] using rev_ind.
    { cbn in Hlen. lia. }
    rewrite logged_each_snoc. apply logged_bound.
    apply Forall_app in Hpre as [_ Hm]. by inversion Hm.
  - intros Hlen. rewrite log_each_run. split; [done|]. cbn [snd].
    destruct Hms as [|m ms Hm Hms]; [cbn in Hlen; lia|].
    cbn [logged_each entries]. cbn in Hlen.
    rewrite logged_each_complete
      by (done || by apply logged_complete || by apply logged_bound).
    cbn [ticks logged].
    rewrite last_n_app_long by (rewrite entries_length; lia).
    symmetry. apply (last_n_app_long 10 [entry e (ticks st) m]).
    rewrite entries_length. lia.
Qed.

Lemma log_keeps_last_ten_witness :
  Forall (λ m, single_line m = true) fifteen_lines
  ∧ log_lines
      (fs (log_each fifteen_lines
             (sample_env ["update_ovh_ddns.py"] (Missing "") (answers ""))
             (boot ∅)).2)
    = last_n 10
        (entries (sample_env ["update_ovh_ddns.py"] (Missing "") (answers ""))
           0 fifteen_lines).
Proof.
  assert (H : Forall (λ m, single_line m = true) fifteen_lines)
    by (repeat constructor).
  split; [exact H|].
  refine (proj2 (proj2 (proj2
            (log_keeps_last_ten _ (boot ∅) fifteen_lines H)) _)).
  cbn. lia.
Defined.

(** C2 as stated fails: after fifteen [log] calls on an absent log file,
    each with a message of two lines, a reader finds 11 lines, and they are
    not the last ten entries. *)
Lemma log_cap_counterexample :
  let e := sample_env ["update_ovh_ddns.py"] (Missing "") (answers "") in
  let st := (log_each fifteen_pairs e (boot ∅)).2 in
  length (log_lines (fs st)) = 11
  ∧ log_text (fs st)
    ≠ Some (joinlines (last_n 10 (entries e 0 fifteen_pairs))).
Proof. split; [by vm_compute|]. vm_compute. discriminate. Qed.

End bounded_log.

(** * What a computation may do

    [within P m] is proved once for each primitive and each function of the
    script, by following its text; the claims then pick [P]. *)

Section within_facts.
Context (P : event → bool).

Lemma within_same {A} (m : M A) :
  (∀ e st, (m e st).2 = st) → within P m.
Proof.
  intros H e st. rewrite H. split; [|done].
  exists []. by rewrite app_nil_r.
Qed.

Lemma within_mret {A} (a : A) : within P (mret a).
Proof. by apply within_same. Qed.

Lemma within_ask : within P ask.
Proof. by apply within_same. Qed.

Lemma within_sys_exit {A} c : within P (@sys_exit A c).
Proof. by apply within_same. Qed.

Lemma within_raise {A} x : within P (@raise A x).
Proof. by apply within_same. Qed.

Lemma within_then {A} (m : M A) e st (st' : state) :
  within P m →
  (∃ evs, trace st' = trace (m e st).2 ++ evs
          ∧ Forall (λ ev, P ev = true) evs) →
  (∀ p, (∀ text, P (EvWrite p text) = false) →
        fs st' !! p = fs (m e st).2 !! p) →
  (∃ evs, trace st' = trace st ++ evs ∧ Forall (λ ev, P ev = true) evs)
  ∧ (∀ p, (∀ text, P (EvWrite p text) = false) → fs st' !! p = fs st !! p).
Proof.
  intros Hm (evs2 & Ht2 & Hp2) Hf2.
  destruct (Hm e st) as [(evs1 & Ht1 & Hp1) Hf1]. split.
  - exists (evs1 ++ evs2). rewrite Ht2, Ht1, app_assoc. split; [done|].
    by apply Forall_app.
  - intros p Hp. by rewrite Hf2, Hf1.
Qed.

Lemma within_bind {A B} (m : M A) (k : A → M B) :
  within P m → (∀ a, within P (k a)) → within P (bind m k).
Proof.
  intros Hm Hk e st. unfold bind.
  destruct (m e st) as [[a|c|x] st1] eqn:E.
  - destruct (Hk a e st1) as [Ht Hf].
    eapply (within_then m e st); rewrite ?E; done.
  - specialize (Hm e st). by rewrite E in Hm.
  - specialize (Hm e st). by rewrite E in Hm.
Qed.

Lemma within_try {A} (body : M A) caught handler :
  within P body → (∀ x, within P (handler x)) →
  within P (try_except body caught handler).
Proof.
  intros Hm Hk e st. unfold try_except.
  destruct (body e st) as [[a|c|x] st1] eqn:E;
    try (specialize (Hm e st); by rewrite E in Hm).
  destruct (caught x); [|specialize (Hm e st); by rewrite E in Hm].
  destruct (Hk x e st1) as [Ht Hf].
  eapply (within_then body e st); rewrite ?E; done.
Qed.

Lemma within_emit ev : P ev = true → within P (emit ev).
Proof.
  intros H e st. split; [|done]. exists [ev]. split; [done|].
  by repeat constructor.
Qed.

Lemma within_path_exists p : P (EvExists p) = true → within P (path_exists p).
Proof.
  intros H. apply within_bind; [by apply within_emit|].
  intros _. by apply within_same.
Qed.

Lemma within_read_text p : P (EvRead p) = true → within P (read_text p).
Proof.
  intros H. apply within_bind; [by apply within_emit|].
  intros _. apply within_same. intros e st. by destruct (fs st !! p).
Qed.

Lemma within_write_text p text :
  P (EvWrite p text) = true → within P (write_text p text).
Proof.
  intros H. apply within_bind; [by apply within_emit|].
  intros _ e st. split.
  - exists []. by rewrite app_nil_r.
  - intros p' Hp'. cbn. apply lookup_insert_ne. intros ->.
    by rewrite Hp' in H.
Qed.

Lemma within_print line : P (EvPrint line) = true → within P (print line).
Proof. apply within_emit. Qed.

Lemma within_datetime_now : within P datetime_now.
Proof. intros e st. split; [|done]. exists []. by rewrite app_nil_r. Qed.

Lemma within_subprocess_run cmd :
  (∀ flags, P (EvRun cmd flags) = true) → within P (subprocess_run cmd).
Proof.
  intros H. apply within_bind; [apply within_ask|]. intros e.
  apply within_bind; [by apply within_emit|]. intros _.
  destruct (curl e cmd) as [rc out|msg]; [|apply within_raise].
  destruct (rc =? 0)%Z; [apply within_mret|apply within_raise].
Qed.

Lemma within_config_read p : P (EvRead p) = true → within P (config_read p).
Proof.
  intros H. apply within_bind; [by apply within_read_text|]. intros text.
  apply within_bind; [apply within_ask|]. intros e.
  destruct (configparser e text); [apply within_raise|apply within_mret].
Qed.

Lemma within_config_get c s o : within P (config_get c s o).
Proof.
  unfold config_get.
  destruct (c s o); [apply within_mret|apply within_raise..].
Qed.

Lemma within_config_get_fallback c s o d :
  within P (config_get_fallback c s o d).
Proof.
  unfold config_get_fallback.
  destruct (c s o); [apply within_mret..|apply within_raise].
Qed.

(** From here on [P] allows what [log] does. *)
Context (P_log : ∀ ev, log_only ev = true → P ev = true).

Lemma within_log m : within P (log m).
Proof.
  intros e st. rewrite log_run. cbn [snd]. split.
  - exists (log_trace e st m). split; [done|].
    eapply Forall_impl; [apply log_trace_only|]. auto.
  - intros p Hp. apply logged_fs_other. intros ->.
    specialize (Hp ""). rewrite P_log in Hp; done.
Qed.

Lemma within_read_config p :
  P (EvExists p) = true → P (EvRead p) = true → within P (read_config p).
Proof.
  intros He Hr. unfold read_config.
  apply within_bind; [by apply within_path_exists|]. intros there.
  destruct (negb there).
  { apply within_bind; [apply within_log|]. intros _. apply within_sys_exit. }
  apply within_bind; [by apply within_config_read|]. intros c.
  apply within_try.
  - repeat (apply within_bind;
      [apply within_config_get || apply within_config_get_fallback|intros ?]).
    apply within_mret.
  - intros x. apply within_bind; [apply within_ask|]. intros e.
    apply within_bind; [apply within_log|]. intros _. apply within_sys_exit.
Qed.

Lemma within_get_ipv6_from_site url :
  (∀ flags, P (EvRun (lookup_cmd url) flags) = true) →
  within P (get_ipv6_from_site url).
Proof.
  intros H. unfold get_ipv6_from_site. apply within_try.
  - apply within_bind; [by apply within_subprocess_run|]. intros out.
    apply within_bind; [apply within_log|]. intros _. apply within_mret.
  - intros x. apply within_bind; [apply within_ask|]. intros e.
    apply within_bind; [apply within_log|]. intros _. apply within_sys_exit.
Qed.

Lemma within_update_ovh_dns u p h ip :
  (∀ flags, P (EvRun (update_cmd u p h ip) flags) = true) →
  within P (update_ovh_dns u p h ip).
Proof.
  intros H. unfold update_ovh_dns.
  apply within_bind; [apply within_log|]. intros _. apply within_try.
  - apply within_bind; [by apply within_subprocess_run|]. intros _.
    apply within_log.
  - intros x. apply within_bind; [apply within_ask|]. intros e.
    apply within_bind; [apply within_log|]. intros _. apply within_sys_exit.
Qed.

Lemma within_read_last_ipv6 :
  P (EvExists IPV6_FILE) = true → P (EvRead IPV6_FILE) = true →
  within P read_last_ipv6.
Proof.
  intros He Hr. unfold read_last_ipv6.
  apply within_bind; [by apply within_path_exists|]. intros there.
  destruct there; [|apply within_mret].
  apply within_bind; [by apply within_read_text|]. intros text.
  apply within_mret.
Qed.

Lemma within_write_current_ipv6 ip :
  P (EvWrite IPV6_FILE (strip ip)) = true → within P (write_current_ipv6 ip).
Proof. apply within_write_text. Qed.

End within_facts.

(** * The functions of the script, run *)

Section run_facts.

Lemma main_split e st :
  main e st = (r <- resolve_current;; compare_and_update r.1 r.2) e st.
Proof.
  unfold main, resolve_current, compare_and_update, skip_update,
    update_and_store.
  unfold bind, ask.
  destruct (bool_decide ("--version" ∈ argv e)); [done|].
  destruct (read_config "config.txt" e st) as [[c| |] st1]; [|done..].
  destruct c as [[[[u p] h] url] ip0].
  unfold cfg_ipv6, cfg_url_lookup, cfg_username, cfg_password, cfg_hostname.
  cbn [fst snd].
  destruct ((if String.eqb ip0 "" then get_ipv6_from_site url
             else mret ip0) e st1) as [[ip| |] st2]; done.
Qed.

Lemma read_last_ipv6_run e st :
  read_last_ipv6 e st = (Ret (last_known (fs st)), looked st).
Proof.
  unfold read_last_ipv6, last_known, looked, path_exists, read_text.
  unfold bind, emit, mret. cbn [fs trace ticks].
  destruct (fs st !! IPV6_FILE) as [raw|] eqn:E.
  - rewrite bool_decide_true by eauto. cbn [fs trace ticks]. rewrite E.
    cbn. by rewrite <- app_assoc.
  - rewrite bool_decide_false by (by intros [? ?]). done.
Qed.

Lemma subprocess_run_run cmd e st :
  subprocess_run cmd e st =
  match curl e cmd with
  | Completed rc out =>
      if (rc =? 0)%Z then (Ret out, ran e st cmd)
      else (Raise (CalledProcessError cmd rc), ran e st cmd)
  | NotStarted msg => (Raise (OSError msg), ran e st cmd)
  end.
Proof.
  unfold subprocess_run, ran, creationflags. unfold bind, ask, emit.
  destruct (curl e cmd) as [rc out|msg]; [|done].
  by destruct (rc =? 0)%Z.
Qed.

Lemma get_ipv6_from_site_run url e st :
  get_ipv6_from_site url e st =
  let st1 := ran e st (lookup_cmd url) in
  match curl e (lookup_cmd url) with
  | Completed rc out =>
      if (rc =? 0)%Z
      then (Ret (strip out),
            logged e st1 ("Obtained IPv6 from " +:+ url +:+ ": " +:+ strip out))
      else (Exit 1,
            logged e st1
              ("Error fetching IPv6 address: "
               +:+ str_called_process_error e (lookup_cmd url) rc))
  | NotStarted msg => (Raise (OSError msg), st1)
  end.
Proof.
  unfold get_ipv6_from_site, try_except. unfold bind at 1.
  fold (lookup_cmd url). rewrite subprocess_run_run.
  destruct (curl e (lookup_cmd url)) as [rc out|msg]; [|done].
  destruct (rc =? 0)%Z.
  - unfold bind. by rewrite log_run.
  - cbn [is_CalledProcessError]. unfold bind, ask. by rewrite log_run.
Qed.

Lemma update_ovh_dns_run u p h ip e st :
  update_ovh_dns u p h ip e st =
  let cmd := update_cmd u p h ip in
  let st1 := ran e (logged e st ("Updating OVH DDNS for " +:+ h +:+ " -> "
                                  +:+ ip)) cmd in
  match curl e cmd with
  | Completed rc out =>
      if (rc =? 0)%Z
      then (Ret tt, logged e st1 "OVH DDNS update complete.")
      else (Exit 1,
            logged e st1
              ("Failed to update OVH DDNS: "
               +:+ str_called_process_error e cmd rc))
  | NotStarted msg => (Raise (OSError msg), st1)
  end.
Proof.
  unfold update_ovh_dns. unfold bind at 1. rewrite log_run.
  unfold try_except. unfold bind at 1. fold (update_cmd u p h ip).
  rewrite subprocess_run_run.
  destruct (curl e (update_cmd u p h ip)) as [rc out|msg]; [|done].
  destruct (rc =? 0)%Z.
  - by rewrite log_run.
  - cbn [is_CalledProcessError]. unfold bind, ask. by rewrite log_run.
Qed.

Lemma write_current_ipv6_run ip e st :
  write_current_ipv6 ip e st =
  (Ret tt,
   {| fs := <[IPV6_FILE := text_write (nt e) (strip ip)]> (fs st);
      trace := trace st ++ [EvWrite IPV6_FILE (strip ip)];
      ticks := ticks st |}).
Proof. done. Qed.

End run_facts.

(** * The entry point *)

Section entry_point.

Lemma main_version e st :
  "--version" ∈ argv e →
  main e st
  = (Exit 0,
     {| fs := fs st;
        trace := trace st ++ [EvPrint "update_ovh_ddns version 1.0"];
        ticks := ticks st |}).
Proof.
  intros Hv. unfold main. unfold bind at 1. unfold ask.
  by rewrite bool_decide_true.
Qed.

Lemma main_no_version e st :
  "--version" ∉ argv e →
  main e st
  = (config <- read_config "config.txt";;
     ipv6 <- resolve_address config;;
     compare_and_update config ipv6) e st.
Proof.
  intros Hv. unfold main, resolve_address, compare_and_update, skip_update,
    update_and_store.
  unfold bind, ask. rewrite bool_decide_false by done.
  destruct (read_config "config.txt" e st) as [[c| |] st1]; [|done..].
  by destruct c as [[[[u p] h] url] ip0].
Qed.

(** C6. When [--version] is among the command-line arguments, the program
    prints the fixed version string and exits with status 0; printing is the
    only thing it does: the configuration file, the log file and the address
    cache are neither tested for existence, nor read, nor written, and no
    file changes. *)
Theorem version_flag_short_circuits (e : env) (files : gmap string string) :
  "--version" ∈ argv e →
  let r := main e (boot files) in
  r.1 = Exit 0
  ∧ exit_status r.1 = 0%Z
  ∧ trace r.2 = [EvPrint "update_ovh_ddns version 1.0"]
  ∧ fs r.2 = files.
Proof.
  intros Hv. cbv zeta. by rewrite main_version.
Qed.

Lemma version_flag_short_circuits_witness :
  "--version" ∈ ["update_ovh_ddns.py"; "--version"]
  ∧ trace (main (sample_env ["update_ovh_ddns.py"; "--version"]
                   (Missing "") (answers ""))
             (boot (sample_files None))).2
    = [EvPrint "update_ovh_ddns version 1.0"].
Proof.
  assert (H : "--version" ∈ ["update_ovh_ddns.py"; "--version"])
    by (apply list_elem_of_further, list_elem_of_here).
  split; [exact H|].
  exact (proj1 (proj2 (proj2
    (version_flag_short_circuits
       (sample_env ["update_ovh_ddns.py"; "--version"] (Missing "")
          (answers ""))
       (sample_files None) H)))).
Defined.

Lemma log_only_elsewhere ev :
  log_only ev = true →
  touches IPV6_FILE ev = false ∧ touches "config.txt" ev = false
  ∧ is_run ev = false.
Proof.
  destruct ev as [p|p|p t|l|cmd fl]; cbn; try done;
    by intros ->%String.eqb_eq.
Qed.

Lemma read_config_missing p e st :
  fs st !! p = None →
  read_config p e st =
  (Exit 1,
   logged e {| fs := fs st; trace := trace st ++ [EvExists p];
               ticks := ticks st |}
     ("Error: Config file '" +:+ p +:+ "' not found.")).
Proof.
  intros H. unfold read_config, path_exists. unfold bind, emit.
  cbn [fs trace ticks].
  rewrite bool_decide_false by (rewrite H; by intros [? ?]).
  cbn [negb]. by rewrite log_run.
Qed.

(** C7. Whenever the configuration file does not exist, loading the
    configuration exits with status 1 after rewriting the log file with an
    entry that names the missing file; the address cache is not even tested
    for existence, no external client is started, and the cache file is as
    it was. A run that gets past the version check is that and nothing
    more. *)
Theorem missing_config_is_fatal (e : env) (files : gmap string string) :
  files !! "config.txt" = None →
  let r := read_config "config.txt" e (boot files) in
  r.1 = Exit 1
  ∧ existsb (logs "Error: Config file 'config.txt' not found.") (trace r.2)
    = true
  ∧ Forall (λ ev, touches IPV6_FILE ev = false ∧ is_run ev = false)
      (trace r.2)
  ∧ fs r.2 !! IPV6_FILE = files !! IPV6_FILE
  ∧ ("--version" ∉ argv e →
     main e (boot files) = (Exit 1, r.2)
     ∧ exit_status (main e (boot files)).1 = 1%Z).
Proof.
  intros Hc. cbv zeta.
  rewrite read_config_missing by done. cbn [fst snd boot fs trace ticks].
  split_and!; try done.
  - cbn [logged trace]. rewrite existsb_app, log_trace_logs.
    apply orb_true_r.
  - cbn [logged trace]. constructor; [done|].
    eapply Forall_impl; [apply log_trace_only|].
    intros ev Hev. by destruct (log_only_elsewhere ev Hev) as (? & ? & ?).
  - by apply logged_fs_other.
  - intros Hv. rewrite main_no_version by done. unfold bind.
    by rewrite read_config_missing.
Qed.

Lemma missing_config_is_fatal_witness :
  (∅ : gmap string string) !! "config.txt" = None
  ∧ (main (sample_env ["update_ovh_ddns.py"] (Missing "") (answers ""))
       (boot ∅)).1 = Exit 1.
Proof.
  assert (H0 : (∅ : gmap string string) !! "config.txt" = None)
    by reflexivity.
  split; [exact H0|].
  assert (H : "--version" ∉ ["update_ovh_ddns.py"]).
  { intros [E|E]%elem_of_cons; [discriminate E|by apply elem_of_nil in E]. }
  destruct (missing_config_is_fatal
              (sample_env ["update_ovh_ddns.py"] (Missing "") (answers ""))
              ∅ H0) as (Hexit & _ & _ & _ & Hmain).
  destruct (Hmain H) as [-> _]. reflexivity.
Defined.

End entry_point.

(** * The address cache *)

Section address_cache.

(** [writeCurrent(s)] followed by [readLast()]. *)
Lemma write_then_read_run s e st :
  (write_current_ipv6 s;; read_last_ipv6) e st
  = (Ret (Some (strip (text_read (text_write (nt e) (strip s))))),
     looked {| fs := <[IPV6_FILE := text_write (nt e) (strip s)]> (fs st);
               trace := trace st ++ [EvWrite IPV6_FILE (strip s)];
               ticks := ticks st |}).
Proof.
  unfold bind. rewrite write_current_ipv6_run, read_last_ipv6_run.
  unfold last_known. cbn [fs]. by rewrite lookup_insert_eq.
Qed.

(** C8, as amended. For every string whose trimmed form holds no carriage
    return, writing it to the cache and reading the cache back returns its
    trimmed form, and trimming that again changes nothing. *)
Theorem cache_round_trip (e : env) (st : state) (s : string) :
  lacks CR (strip s) = true →
  ((write_current_ipv6 s;; read_last_ipv6) e st).1 = Ret (Some (strip s))
  ∧ strip (strip s) = strip s.
Proof.
  intros H. rewrite write_then_read_run. cbn [fst].
  by rewrite text_read_write, strip_idem.
Qed.

Lemma cache_round_trip_witness :
  lacks CR (strip "  2001:db8::1 ") = true
  ∧ ((write_current_ipv6 "  2001:db8::1 ";; read_last_ipv6)
       (sample_env ["update_ovh_ddns.py"] (Missing "") (answers ""))
       (boot ∅)).1
    = Ret (Some "2001:db8::1").
Proof.
  split; [reflexivity|].
  exact (proj1
    (cache_round_trip
       (sample_env ["update_ovh_ddns.py"] (Missing "") (answers ""))
       (boot ∅) "  2001:db8::1 " eq_refl)).
Defined.

(** C8 as stated fails: a carriage return inside the address is written as
    it is and read back as a line feed. *)
Lemma cache_round_trip_counterexample :
  let s := String "a" (String CR "b") in
  ((write_current_ipv6 s;; read_last_ipv6)
     (sample_env ["update_ovh_ddns.py"] (Missing "") (answers ""))
     (boot ∅)).1
  = Ret (Some (String "a" (String LF "b")))
  ∧ Some (String "a" (String LF "b")) ≠ Some (strip s).
Proof. split; [by vm_compute|]. vm_compute. discriminate. Qed.

End address_cache.

(** * Update requests and cache writes of a run *)

Section dealings.

Lemma filter_none (f : event → bool) l :
  Forall (λ ev, f ev = false) l → List.filter f l = [].
Proof.
  induction 1 as [|ev l Hev _ IH]; [done|]. cbn. by rewrite Hev.
Qed.

Lemma log_only_no_dealing ev :
  log_only ev = true →
  update_or_store ev = false ∧ is_update_request ev = false
  ∧ is_lookup_request ev = false.
Proof.
  unfold update_or_store.
  destruct ev as [p|p|p t|l|cmd fl]; cbn; try done.
  by intros ->%String.eqb_eq.
Qed.

Lemma filter_log_trace (f : event → bool) e st m :
  (∀ ev, log_only ev = true → f ev = false) →
  List.filter f (log_trace e st m) = [].
Proof.
  intros Hf. apply filter_none.
  eapply Forall_impl; [apply log_trace_only|]. auto.
Qed.

Lemma filter_logged (f : event → bool) e st m :
  (∀ ev, log_only ev = true → f ev = false) →
  List.filter f (trace (logged e st m)) = List.filter f (trace st).
Proof.
  intros Hf. cbn [logged trace].
  by rewrite List.filter_app, filter_log_trace, app_nil_r.
Qed.

Lemma filter_looked (f : event → bool) st :
  f (EvExists IPV6_FILE) = false → f (EvRead IPV6_FILE) = false →
  List.filter f (trace (looked st)) = List.filter f (trace st).
Proof.
  intros He Hr. cbn [looked trace]. rewrite List.filter_app.
  cbn [List.filter]. rewrite He.
  destruct (bool_decide _); cbn [List.filter]; rewrite ?Hr;
    by rewrite app_nil_r.
Qed.

Lemma filter_ran (f : event → bool) e st cmd :
  List.filter f (trace (ran e st cmd))
  = List.filter f (trace st)
    ++ (if f (EvRun cmd (creationflags e))
        then [EvRun cmd (creationflags e)] else []).
Proof. cbn [ran trace]. by rewrite List.filter_app. Qed.

(** Up to the point where the current address is known, the run neither
    issues an update request nor writes the address cache, whose file is as
    it was. *)
Lemma resolve_current_no_dealing e st :
  (∃ evs, trace (resolve_current e st).2 = trace st ++ evs
          ∧ Forall (λ ev, update_or_store ev = false) evs)
  ∧ fs (resolve_current e st).2 !! IPV6_FILE = fs st !! IPV6_FILE.
Proof.
  set (P := λ ev, negb (update_or_store ev)).
  assert (Hlog : ∀ ev, log_only ev = true → P ev = true).
  { intros ev Hev. unfold P.
    by destruct (log_only_no_dealing ev Hev) as (-> & _). }
  assert (H : within P resolve_current).
  { unfold resolve_current.
    apply within_bind; [apply within_ask|]. intros e'.
    destruct (bool_decide _).
    { apply within_bind; [by apply within_print|]. intros _.
      apply within_sys_exit. }
    apply within_bind; [by apply within_read_config|]. intros c.
    apply within_bind; [|intros; apply within_mret].
    destruct (String.eqb _ _); [|apply within_mret].
    by apply within_get_ipv6_from_site. }
  destruct (H e st) as [(evs & Ht & Hevs) Hfs]. split.
  - exists evs. split; [done|]. eapply Forall_impl; [exact Hevs|].
    intros ev. unfold P. by intros ->%negb_true_iff.
  - by apply Hfs.
Qed.

End dealings.

(** * Compare, then update and store *)

Section compare.

Lemma skip_update_run ip e st :
  skip_update ip e st
  = (Exit 0,
     logged e st
       ("No IPv6 change detected (" +:+ ip +:+ "). Skipping update.")).
Proof. unfold skip_update, bind. by rewrite log_run. Qed.

Lemma update_and_store_run c ip e st :
  update_and_store c ip e st =
  let cmd := update_cmd (cfg_username c) (cfg_password c) (cfg_hostname c) ip in
  let st1 :=
    ran e (logged e st ("Updating OVH DDNS for " +:+ cfg_hostname c
                        +:+ " -> " +:+ ip)) cmd in
  match curl e cmd with
  | Completed rc out =>
      if (rc =? 0)%Z
      then (Ret tt,
            logged e
              (stored e (logged e st1 "OVH DDNS update complete.") ip)
              ("Stored new IPv6 address: " +:+ ip))
      else (Exit 1,
            logged e st1
              ("Failed to update OVH DDNS: "
               +:+ str_called_process_error e cmd rc))
  | NotStarted msg => (Raise (OSError msg), st1)
  end.
Proof.
  unfold update_and_store. unfold bind at 1. rewrite update_ovh_dns_run.
  cbv zeta.
  destruct (curl e (update_cmd _ _ _ ip)) as [rc out|msg]; [|done].
  destruct (rc =? 0)%Z; [|done].
  unfold bind. by rewrite write_current_ipv6_run, log_run.
Qed.

Lemma compare_and_update_run c ip e st :
  compare_and_update c ip e st =
  (if truthy (last_known (fs st))
      && bool_decide (Some ip = last_known (fs st))
   then skip_update ip else update_and_store c ip) e (looked st).
Proof.
  unfold compare_and_update. unfold bind. by rewrite read_last_ipv6_run.
Qed.

(** A run that gets to know its current address goes on with the
    comparison, having left the cache alone. *)
Lemma main_reaches_compare e files c ip st1 :
  resolve_current e (boot files) = (Ret (c, ip), st1) →
  main e (boot files) = compare_and_update c ip e st1
  ∧ List.filter update_or_store (trace st1) = []
  ∧ List.filter is_update_request (trace st1) = []
  ∧ fs st1 !! IPV6_FILE = files !! IPV6_FILE.
Proof.
  intros H. split.
  { rewrite main_split. unfold bind at 1. by rewrite H. }
  destruct (resolve_current_no_dealing e (boot files))
    as [(evs & Ht & Hevs) Hfs].
  rewrite H in Ht, Hfs. cbn [snd boot trace fs] in Ht, Hfs.
  cbn [app] in Ht. rewrite Ht. split_and!; [| |done].
  - by apply filter_none.
  - apply filter_none. eapply Forall_impl; [exact Hevs|].
    intros ev. unfold update_or_store. by intros [-> _]%orb_false_iff.
Qed.

Lemma truthy_equal_false ip (last : option string) :
  last ≠ Some ip → truthy last && bool_decide (Some ip = last) = false.
Proof.
  intros H. rewrite bool_decide_false by congruence. apply andb_false_r.
Qed.

Lemma filter_stored (f : event → bool) e st ip :
  List.filter f (trace (stored e st ip))
  = List.filter f (trace st)
    ++ (if f (EvWrite IPV6_FILE (strip ip))
        then [EvWrite IPV6_FILE (strip ip)] else []).
Proof. cbn [stored trace]. by rewrite List.filter_app. Qed.

Lemma update_or_store_log ev :
  log_only ev = true → update_or_store ev = false.
Proof. intros H. by destruct (log_only_no_dealing ev H) as (? & ? & ?). Qed.

Lemma is_update_request_log ev :
  log_only ev = true → is_update_request ev = false.
Proof. intros H. by destruct (log_only_no_dealing ev H) as (? & ? & ?). Qed.

(** The update requests, and the update requests and cache writes, of
    [update_and_store], whatever the client answers. *)
Lemma update_and_store_dealings c ip e st :
  let cmd := update_cmd (cfg_username c) (cfg_password c) (cfg_hostname c) ip in
  let request := EvRun cmd (creationflags e) in
  let r := update_and_store c ip e (looked st) in
  List.filter is_update_request (trace r.2)
  = List.filter is_update_request (trace st) ++ [request]
  ∧ List.filter update_or_store (trace r.2)
    = List.filter update_or_store (trace st) ++ request ::
        match curl e cmd with
        | Completed 0 _ => [EvWrite IPV6_FILE (strip ip)]
        | _ => []
        end.
Proof.
  cbv zeta. rewrite update_and_store_run. cbv zeta.
  destruct (curl e (update_cmd _ _ _ ip)) as [rc out|msg].
  - destruct (Z.eqb_spec rc 0) as [->|Hrc]; cbn [snd].
    + rewrite !filter_logged, !filter_stored, !filter_logged, !filter_ran,
        !filter_logged, !filter_looked
        by (done || apply update_or_store_log || apply is_update_request_log).
      cbn. by rewrite <- !app_assoc, !app_nil_r.
    + rewrite !filter_logged, !filter_ran, !filter_logged, !filter_looked
        by (done || apply update_or_store_log || apply is_update_request_log).
      cbn. by destruct rc.
  - cbn [snd].
    rewrite !filter_ran, !filter_logged, !filter_looked
      by (done || apply update_or_store_log || apply is_update_request_log).
    done.
Qed.

End compare.

(** * The decision of a run *)

Section decision.

(** C1. In every run whose resolved current address differs from the last
    known address (the one [read_last_ipv6] gives, or none), exactly one
    update request is issued, for that address; the update requests and
    cache writes of the run are that request alone, or that request followed
    by one write of the cache. When the client exits with a non-zero status
    the process exits with status 1, no cache write happens and the cache
    file is as it was before the run (absent if it was absent). *)
Theorem update_precedes_store (e : env) (files : gmap string string)
    (c : config) (ip : string) (st1 : state) :
  resolve_current e (boot files) = (Ret (c, ip), st1) →
  (read_last_ipv6 e st1).1 ≠ Ret (Some ip) →
  let cmd := update_cmd (cfg_username c) (cfg_password c) (cfg_hostname c) ip in
  let request := EvRun cmd (creationflags e) in
  let r := main e (boot files) in
  List.filter is_update_request (trace r.2) = [request]
  ∧ (List.filter update_or_store (trace r.2) = [request]
     ∨ List.filter update_or_store (trace r.2)
       = [request; EvWrite IPV6_FILE (strip ip)])
  ∧ (∀ rc out, curl e cmd = Completed rc out → rc ≠ 0%Z →
       r.1 = Exit 1
       ∧ exit_status r.1 ≠ 0%Z
       ∧ List.filter update_or_store (trace r.2) = [request]
       ∧ fs r.2 !! IPV6_FILE = files !! IPV6_FILE).
Proof.
  intros Hres Hlast. cbv zeta.
  destruct (main_reaches_compare e files c ip st1 Hres)
    as (-> & Hnone & Hnoreq & Hfs).
  rewrite compare_and_update_run.
  rewrite read_last_ipv6_run in Hlast. cbn [fst] in Hlast.
  rewrite truthy_equal_false by congruence.
  destruct (update_and_store_dealings c ip e st1) as [Hreq Hdeal].
  rewrite Hnoreq in Hreq. rewrite Hnone in Hdeal. cbn [app] in Hreq, Hdeal.
  split_and!; [done| |].
  - rewrite Hdeal. destruct (curl e _) as [[| |] ?|]; auto.
  - intros rc out Hrun Hrc. rewrite Hdeal, Hrun.
    rewrite update_and_store_run. cbv zeta. rewrite Hrun.
    apply Z.eqb_neq in Hrc as Hrc'. rewrite Hrc'. cbn [fst snd exit_status].
    split_and!; [done|done|by destruct rc|].
    rewrite logged_fs_other by done. cbn [ran fs].
    rewrite logged_fs_other by done. done.
Qed.

Lemma update_precedes_store_witness :
  let files := sample_files (Some "2001:db8::2") in
  let st1 := (resolve_current refused_env (boot files)).2 in
  resolve_current refused_env (boot files)
  = (Ret (sample_loaded, "2001:db8::1"), st1)
  ∧ (read_last_ipv6 refused_env st1).1 ≠ Ret (Some "2001:db8::1")
  ∧ (main refused_env (boot files)).1 = Exit 1
  ∧ fs (main refused_env (boot files)).2 !! IPV6_FILE = Some "2001:db8::2".
Proof.
  cbv zeta.
  assert (H1 : resolve_current refused_env
                 (boot (sample_files (Some "2001:db8::2")))
               = (Ret (sample_loaded, "2001:db8::1"),
                  (resolve_current refused_env
                     (boot (sample_files (Some "2001:db8::2")))).2))
    by (vm_compute; reflexivity).
  assert (H2 : (read_last_ipv6 refused_env
                  (resolve_current refused_env
                     (boot (sample_files (Some "2001:db8::2")))).2).1
               ≠ Ret (Some "2001:db8::1"))
    by (vm_compute; discriminate).
  split; [exact H1|]. split; [exact H2|].
  destruct (proj2 (proj2 (update_precedes_store _ _ _ _ _ H1 H2)) 6%Z ""
              eq_refl ltac:(discriminate)) as (Hexit & _ & _ & Hfs).
  split; [exact Hexit|]. rewrite Hfs. reflexivity.
Defined.

(** C3, as amended. In every run where the last known address read from the
    cache is not empty and equals the resolved current address, the process
    exits with status 0 after logging the skip message; no update request is
    issued, the cache is not written and its file is as it was. *)
Theorem unchanged_address_is_skipped (e : env) (files : gmap string string)
    (c : config) (ip : string) (st1 : state) :
  resolve_current e (boot files) = (Ret (c, ip), st1) →
  (read_last_ipv6 e st1).1 = Ret (Some ip) →
  ip ≠ "" →
  let r := main e (boot files) in
  r.1 = Exit 0
  ∧ exit_status r.1 = 0%Z
  ∧ List.filter update_or_store (trace r.2) = []
  ∧ fs r.2 !! IPV6_FILE = files !! IPV6_FILE
  ∧ existsb
      (logs ("No IPv6 change detected (" +:+ ip +:+ "). Skipping update."))
      (trace r.2) = true.
Proof.
  intros Hres Hlast Hip. cbv zeta.
  destruct (main_reaches_compare e files c ip st1 Hres)
    as (-> & Hnone & Hnoreq & Hfs).
  rewrite compare_and_update_run.
  rewrite read_last_ipv6_run in Hlast. cbn [fst] in Hlast.
  assert (Hl : last_known (fs st1) = Some ip) by congruence.
  rewrite Hl. rewrite bool_decide_true by done.
  destruct ip as [|a ip]; [done|]. cbn [truthy andb].
  rewrite skip_update_run. cbn [fst snd exit_status].
  split_and!; [done|done| | |].
  - by rewrite filter_logged, filter_looked
      by (done || apply update_or_store_log).
  - by rewrite logged_fs_other.
  - cbn [logged trace]. rewrite existsb_app, log_trace_logs.
    apply orb_true_r.
Qed.

Lemma unchanged_address_is_skipped_witness :
  let files := sample_files (Some "2001:db8::9") in
  let st1 := (resolve_current static_env (boot files)).2 in
  resolve_current static_env (boot files)
  = (Ret (("alice", "secret", "home.example.org", "http://ipconfig.io",
           "2001:db8::9"), "2001:db8::9"), st1)
  ∧ (read_last_ipv6 static_env st1).1 = Ret (Some "2001:db8::9")
  ∧ "2001:db8::9" ≠ ""
  ∧ (main static_env (boot files)).1 = Exit 0
  ∧ List.filter update_or_store (trace (main static_env (boot files)).2) = [].
Proof.
  cbv zeta.
  assert (H1 : resolve_current static_env
                 (boot (sample_files (Some "2001:db8::9")))
               = (Ret (("alice", "secret", "home.example.org",
                        "http://ipconfig.io", "2001:db8::9"), "2001:db8::9"),
                  (resolve_current static_env
                     (boot (sample_files (Some "2001:db8::9")))).2))
    by (vm_compute; reflexivity).
  assert (H2 : (read_last_ipv6 static_env
                  (resolve_current static_env
                     (boot (sample_files (Some "2001:db8::9")))).2).1
               = Ret (Some "2001:db8::9"))
    by (vm_compute; reflexivity).
  assert (H3 : "2001:db8::9" ≠ "") by discriminate.
  split; [exact H1|]. split; [exact H2|]. split; [exact H3|].
  destruct (unchanged_address_is_skipped _ _ _ _ _ H1 H2 H3)
    as (Hexit & _ & Hnone & _).
  split; [exact Hexit|exact Hnone].
Defined.

(** C3 as stated fails: the lookup answers nothing, the cache file is empty,
    so the last known address read from the cache equals the resolved
    address; yet an update request is issued and the cache is rewritten. *)
Lemma skip_counterexample :
  let files := sample_files (Some "") in
  let st1 := (resolve_current silent_env (boot files)).2 in
  (resolve_current silent_env (boot files)).1 = Ret (sample_loaded, "")
  ∧ (read_last_ipv6 silent_env st1).1 = Ret (Some "")
  ∧ existsb is_update_request (trace (main silent_env (boot files)).2) = true
  ∧ existsb (writes IPV6_FILE) (trace (main silent_env (boot files)).2)
    = true.
Proof. cbv zeta. split_and!; by vm_compute. Qed.

(** C9. In every run that gets to the comparison with a cache file whose
    trimmed content is empty, [read_last_ipv6] gives the empty string, the
    run does not skip but goes on exactly as [update_and_store] does, and
    one update request is issued for the resolved address, whatever that
    address is, the empty string included. *)
Theorem empty_cache_counts_as_absent (e : env) (files : gmap string string)
    (c : config) (ip : string) (st1 : state) (raw : string) :
  resolve_current e (boot files) = (Ret (c, ip), st1) →
  files !! IPV6_FILE = Some raw →
  strip (text_read raw) = "" →
  let r := main e (boot files) in
  (read_last_ipv6 e st1).1 = Ret (Some "")
  ∧ r = update_and_store c ip e (read_last_ipv6 e st1).2
  ∧ List.filter is_update_request (trace r.2)
    = [EvRun (update_cmd (cfg_username c) (cfg_password c) (cfg_hostname c)
                ip) (creationflags e)].
Proof.
  intros Hres Hraw Hstrip. cbv zeta.
  destruct (main_reaches_compare e files c ip st1 Hres)
    as (-> & Hnone & Hnoreq & Hfs).
  rewrite compare_and_update_run, read_last_ipv6_run. cbn [fst snd].
  assert (Hl : last_known (fs st1) = Some "").
  { unfold last_known. rewrite Hfs, Hraw. cbn. by rewrite Hstrip. }
  rewrite Hl. cbn [truthy andb]. split_and!; [done|done|].
  destruct (update_and_store_dealings c ip e st1) as [Hreq _].
  rewrite Hreq, Hnoreq. done.
Qed.

Lemma empty_cache_counts_as_absent_witness :
  let files := sample_files (Some " ") in
  let st1 := (resolve_current silent_env (boot files)).2 in
  resolve_current silent_env (boot files) = (Ret (sample_loaded, ""), st1)
  ∧ files !! IPV6_FILE = Some " "
  ∧ strip (text_read " ") = ""
  ∧ List.filter is_update_request (trace (main silent_env (boot files)).2)
    = [EvRun (update_cmd "alice" "secret" "home.example.org" "") 0].
Proof.
  cbv zeta.
  assert (H1 : resolve_current silent_env (boot (sample_files (Some " ")))
               = (Ret (sample_loaded, ""),
                  (resolve_current silent_env
                     (boot (sample_files (Some " ")))).2))
    by (vm_compute; reflexivity).
  assert (H2 : sample_files (Some " ") !! IPV6_FILE = Some " ")
    by (vm_compute; reflexivity).
  assert (H3 : strip (text_read " ") = "") by reflexivity.
  split; [exact H1|]. split; [exact H2|]. split; [exact H3|].
  exact (proj2 (proj2 (empty_cache_counts_as_absent _ _ _ _ _ _ H1 H2 H3))).
Defined.

End decision.

(** * The address resolver *)

Section resolver.

Lemma within_compare_and_update (P : event → bool) c ip :
  (∀ ev, log_only ev = true → P ev = true) →
  P (EvExists IPV6_FILE) = true → P (EvRead IPV6_FILE) = true →
  P (EvWrite IPV6_FILE (strip ip)) = true →
  (∀ flags,
     P (EvRun (update_cmd (cfg_username c) (cfg_password c) (cfg_hostname c)
                 ip) flags) = true) →
  within P (compare_and_update c ip).
Proof.
  intros Hlog He Hr Hw Hu. unfold compare_and_update.
  apply within_bind; [by apply within_read_last_ipv6|]. intros last.
  destruct (_ && _).
  - apply within_bind; [by apply within_log|]. intros _.
    apply within_sys_exit.
  - apply within_bind; [by apply within_update_ovh_dns|]. intros _.
    apply within_bind; [by apply within_write_current_ipv6|]. intros _.
    by apply within_log.
Qed.

(** What a configuration that [read_config] returned was loaded from. *)
Lemma read_config_loaded p e st c st1 :
  read_config p e st = (Ret c, st1) →
  ∃ text get,
    fs st !! p = Some text
    ∧ configparser e (text_read text) = Parsed get
    ∧ get "ovh" "username" = Found (cfg_username c)
    ∧ get "ovh" "password" = Found (cfg_password c)
    ∧ get "ovh" "hostname" = Found (cfg_hostname c)
    ∧ cfg_ipv6 c
      = strip (match get "ovh" "ipv6" with Found v => v | _ => "" end)
    ∧ st1 = {| fs := fs st; trace := trace st ++ [EvExists p; EvRead p];
               ticks := ticks st |}.
Proof.
  intros H. unfold read_config, path_exists, config_read, read_text in H.
  unfold bind, emit, ask in H. cbn [fs trace ticks] in H.
  destruct (fs st !! p) as [text|] eqn:Hp.
  2:{ rewrite bool_decide_false in H by (by intros [? ?]). cbn [negb] in H.
      by rewrite log_run in H. }
  rewrite bool_decide_true in H by eauto. cbn [negb fs trace ticks] in H.
  rewrite Hp in H. cbn [fs trace ticks] in H.
  destruct (configparser e (text_read text)) as [msg|get] eqn:Hparse;
    [done|].
  exists text, get. split; [done|]. split; [done|]. revert H.
  unfold mret at 1.
  unfold try_except, bind, config_get, config_get_fallback, mret, raise, ask,
    sys_exit.
  rewrite <- app_assoc. cbn [app].
  destruct (get "ovh" "username"); rewrite ?log_run; try done.
  destruct (get "ovh" "password"); rewrite ?log_run; try done.
  destruct (get "ovh" "hostname"); rewrite ?log_run; try done.
  destruct (get "ovh" "url_lookup"); rewrite ?log_run; try done;
    destruct (get "ovh" "ipv6"); rewrite ?log_run; try done;
    by intros [= <- <-].
Qed.

Lemma resolve_address_static c e st :
  cfg_ipv6 c ≠ "" → resolve_address c e st = (Ret (cfg_ipv6 c), st).
Proof.
  intros H. unfold resolve_address.
  by apply String.eqb_neq in H as ->.
Qed.

Lemma resolve_address_dynamic c :
  cfg_ipv6 c = "" → resolve_address c = get_ipv6_from_site (cfg_url_lookup c).
Proof. intros H. unfold resolve_address. by rewrite H. Qed.

(** C4. For every configuration that [read_config] loads with a non-empty
    static address: that address is the trimmed value of the [ipv6] option,
    the resolver returns it as it is without doing anything, and no lookup
    command is started at any point of the run. *)
Theorem static_address_needs_no_lookup (e : env)
    (files : gmap string string) (c : config) (st1 : state) :
  read_config "config.txt" e (boot files) = (Ret c, st1) →
  cfg_ipv6 c ≠ "" →
  (∃ text get raw,
     files !! "config.txt" = Some text
     ∧ configparser e (text_read text) = Parsed get
     ∧ get "ovh" "ipv6" = Found raw
     ∧ cfg_ipv6 c = strip raw)
  ∧ resolve_address c e st1 = (Ret (cfg_ipv6 c), st1)
  ∧ Forall (λ ev, is_lookup_request ev = false)
      (trace (main e (boot files)).2).
Proof.
  intros Hrc Hne.
  destruct (read_config_loaded _ _ _ _ _ Hrc)
    as (text & get & Htext & Hparse & _ & _ & _ & Hip & Hst1).
  split_and!.
  - exists text, get. destruct (get "ovh" "ipv6") as [raw| |] eqn:Hget;
      [by exists raw|done..].
  - by apply resolve_address_static.
  - destruct (decide ("--version" ∈ argv e)) as [Hv|Hv].
    { rewrite main_version by done. by repeat constructor. }
    rewrite main_no_version by done. unfold bind at 1. rewrite Hrc.
    unfold bind at 1. rewrite resolve_address_static by done.
    set (P := λ ev, negb (is_lookup_request ev)).
    assert (Hlog : ∀ ev, log_only ev = true → P ev = true).
    { intros ev Hev. unfold P.
      by destruct (log_only_no_dealing ev Hev) as (_ & _ & ->). }
    destruct (within_compare_and_update P c (cfg_ipv6 c) Hlog
                eq_refl eq_refl eq_refl (λ _, eq_refl) e st1)
      as [(evs & -> & Hevs) _].
    rewrite Hst1. cbn [trace boot app]. do 2 (constructor; [done|]).
    eapply Forall_impl; [exact Hevs|]. intros ev. unfold P.
    by intros ->%negb_true_iff.
Qed.

Lemma static_address_needs_no_lookup_witness :
  let files := sample_files None in
  let c := ("alice", "secret", "home.example.org", "http://ipconfig.io",
            "2001:db8::9") in
  let st1 := (read_config "config.txt" static_env (boot files)).2 in
  read_config "config.txt" static_env (boot files) = (Ret c, st1)
  ∧ cfg_ipv6 c ≠ ""
  ∧ resolve_address c static_env st1 = (Ret "2001:db8::9", st1)
  ∧ Forall (λ ev, is_lookup_request ev = false)
      (trace (main static_env (boot files)).2).
Proof.
  cbv zeta.
  assert (H1 : read_config "config.txt" static_env (boot (sample_files None))
               = (Ret ("alice", "secret", "home.example.org",
                       "http://ipconfig.io", "2001:db8::9"),
                  (read_config "config.txt" static_env
                     (boot (sample_files None))).2))
    by (vm_compute; reflexivity).
  assert (H2 : cfg_ipv6 ("alice", "secret", "home.example.org",
                         "http://ipconfig.io", "2001:db8::9") ≠ "")
    by discriminate.
  split; [exact H1|]. split; [exact H2|].
  exact (proj2 (static_address_needs_no_lookup _ _ _ _ H1 H2)).
Defined.

Lemma main_dynamic e files c st1 :
  "--version" ∉ argv e →
  read_config "config.txt" e (boot files) = (Ret c, st1) →
  cfg_ipv6 c = "" →
  main e (boot files)
  = (ipv6 <- get_ipv6_from_site (cfg_url_lookup c);;
     compare_and_update c ipv6) e st1.
Proof.
  intros Hv Hrc Hip. rewrite main_no_version by done.
  unfold bind at 1. rewrite Hrc.
  by rewrite resolve_address_dynamic.
Qed.

(** C5, as amended. In a run that loads a configuration without static
    address, a lookup command that exits with a non-zero status makes the
    resolver log a fatal entry and the process exit with status 1; a lookup
    command that cannot be started at all raises an exception that nothing
    catches: the process ends with status 1 right after the attempt, and
    nothing is logged for it. *)
Theorem lookup_failure_is_fatal (e : env) (files : gmap string string)
    (c : config) (st1 : state) :
  "--version" ∉ argv e →
  read_config "config.txt" e (boot files) = (Ret c, st1) →
  cfg_ipv6 c = "" →
  let cmd := lookup_cmd (cfg_url_lookup c) in
  let r := main e (boot files) in
  (∀ rc out, curl e cmd = Completed rc out → rc ≠ 0%Z →
     r.1 = Exit 1
     ∧ exit_status r.1 = 1%Z
     ∧ r.2 = logged e (ran e st1 cmd)
               ("Error fetching IPv6 address: "
                +:+ str_called_process_error e cmd rc)
     ∧ existsb
         (logs ("Error fetching IPv6 address: "
                +:+ str_called_process_error e cmd rc))
         (trace r.2) = true)
  ∧ (∀ msg, curl e cmd = NotStarted msg →
     r.1 = Raise (OSError msg)
     ∧ exit_status r.1 = 1%Z
     ∧ r.2 = ran e st1 cmd).
Proof.
  intros Hv Hrc Hip. cbv zeta.
  rewrite (main_dynamic e files c st1) by done. unfold bind.
  rewrite get_ipv6_from_site_run. cbv zeta. split.
  - intros rc out -> Hne. apply Z.eqb_neq in Hne as ->.
    cbn [fst snd exit_status]. split_and!; try done.
    cbn [logged trace]. rewrite existsb_app, log_trace_logs.
    apply orb_true_r.
  - by intros msg ->.
Qed.

Lemma lookup_failure_is_fatal_witness :
  let files := sample_files None in
  let st1 := (read_config "config.txt" no_curl_env (boot files)).2 in
  ("--version" ∉ argv no_curl_env)
  ∧ read_config "config.txt" no_curl_env (boot files)
    = (Ret sample_loaded, st1)
  ∧ cfg_ipv6 sample_loaded = ""
  ∧ exit_status (main no_curl_env (boot files)).1 = 1%Z.
Proof.
  cbv zeta.
  assert (H0 : "--version" ∉ argv no_curl_env).
  { intros [E|E]%elem_of_cons; [discriminate E|by apply elem_of_nil in E]. }
  assert (H1 : read_config "config.txt" no_curl_env
                 (boot (sample_files None))
               = (Ret sample_loaded,
                  (read_config "config.txt" no_curl_env
                     (boot (sample_files None))).2))
    by (vm_compute; reflexivity).
  assert (H2 : cfg_ipv6 sample_loaded = "") by reflexivity.
  split; [exact H0|]. split; [exact H1|]. split; [exact H2|].
  exact (proj1 (proj2
    (proj2 (lookup_failure_is_fatal _ _ _ _ H0 H1 H2) _ eq_refl))).
Defined.

(** C5 as stated fails: with the client binary absent the run ends on the
    uncaught exception; the log file is never accessed, so no fatal entry
    is logged. *)
Lemma lookup_failure_counterexample :
  let r := main no_curl_env (boot (sample_files None)) in
  r.1 = Raise (OSError "[Errno 2] No such file or directory: 'curl'")
  ∧ existsb (touches LOG_FILE) (trace r.2) = false
  ∧ fs r.2 !! LOG_FILE = None.
Proof. cbv zeta. split_and!; by vm_compute. Qed.

End resolver.

(** * A blank static address *)

Section blank_address.

(** Everything but [read_config] ignores the configuration parser. *)
Lemma log_with_ipv6 a m e st : log m (with_ipv6 a e) st = log m e st.
Proof. by rewrite !log_run. Qed.

Lemma get_ipv6_from_site_with_ipv6 a url e st :
  get_ipv6_from_site url (with_ipv6 a e) st = get_ipv6_from_site url e st.
Proof. by rewrite !get_ipv6_from_site_run. Qed.

Lemma compare_and_update_with_ipv6 a c ip e st :
  compare_and_update c ip (with_ipv6 a e) st = compare_and_update c ip e st.
Proof.
  rewrite !compare_and_update_run.
  destruct (_ && _); [by rewrite !skip_update_run|].
  by rewrite !update_and_store_run.
Qed.

(** A blank [ipv6] option loads like an omitted one. *)
Lemma read_config_blank ws msg p e st :
  all_space ws = true →
  read_config p (with_ipv6 (Found ws) e) st
  = read_config p (with_ipv6 (Missing msg) e) st.
Proof.
  intros Hws. unfold read_config, path_exists, config_read, read_text.
  unfold bind, emit, ask. cbn [fs trace ticks].
  destruct (bool_decide (is_Some (fs st !! p))); cbn [negb fs trace ticks].
  2:{ by rewrite !log_with_ipv6. }
  destruct (fs st !! p) as [text|]; [|done].
  cbn [configparser with_ipv6].
  destruct (configparser e (text_read text)) as [|get]; [done|].
  unfold try_except, bind, config_get, config_get_fallback, ask.
  cbv [mret raise String.eqb Ascii.eqb Bool.eqb andb].
  destruct (get "ovh" "username"); [|by rewrite !log_with_ipv6..].
  destruct (get "ovh" "password"); [|by rewrite !log_with_ipv6..].
  destruct (get "ovh" "hostname"); [|by rewrite !log_with_ipv6..].
  destruct (get "ovh" "url_lookup"); [| |by rewrite !log_with_ipv6];
    by rewrite strip_all_space.
Qed.

Lemma bind_run {A B} (m : M A) (k : A → M B) e st :
  bind m k e st =
  match m e st with
  | (Ret a, st') => k a e st'
  | (Exit c, st') => (Exit c, st')
  | (Raise x, st') => (Raise x, st')
  end.
Proof. done. Qed.

Lemma resolve_address_with_ipv6 a c e st :
  resolve_address c (with_ipv6 a e) st = resolve_address c e st.
Proof.
  unfold resolve_address.
  destruct (String.eqb _ _); [apply get_ipv6_from_site_with_ipv6|done].
Qed.

Lemma main_with_ipv6 a b e st :
  read_config "config.txt" (with_ipv6 a e) st
  = read_config "config.txt" (with_ipv6 b e) st →
  main (with_ipv6 a e) st = main (with_ipv6 b e) st.
Proof.
  intros H. destruct (decide ("--version" ∈ argv e)) as [Hv|Hv].
  { by rewrite !main_version. }
  rewrite !main_no_version by done.
  rewrite !(bind_run (read_config _)), H.
  destruct (read_config "config.txt" (with_ipv6 b e) st)
    as [[c| |] st1]; [|done..].
  rewrite !(bind_run (resolve_address _)), !resolve_address_with_ipv6.
  destruct (resolve_address c e st1) as [[ip| |] st2]; [|done..].
  by rewrite !compare_and_update_with_ipv6.
Qed.

(** C10. When the [ipv6] option holds only whitespace, the whole run is the
    same as when the option is omitted; a configuration loaded from it has
    the empty string as static address, on which the resolver is the
    network lookup; and a run that loads it and gets past the version check
    starts the lookup command. *)
Theorem blank_static_address_is_dynamic (e : env) (st : state)
    (ws msg : string) :
  all_space ws = true →
  main (with_ipv6 (Found ws) e) st = main (with_ipv6 (Missing msg) e) st
  ∧ (∀ c st1,
       read_config "config.txt" (with_ipv6 (Found ws) e) st = (Ret c, st1) →
       cfg_ipv6 c = ""
       ∧ resolve_address c = get_ipv6_from_site (cfg_url_lookup c)
       ∧ ("--version" ∉ argv e →
          existsb is_lookup_request
            (trace (main (with_ipv6 (Found ws) e) st).2) = true)).
Proof.
  intros Hws. split.
  { apply main_with_ipv6. by apply read_config_blank. }
  intros c st1 Hrc.
  assert (Hip : cfg_ipv6 c = "").
  { destruct (read_config_loaded _ _ _ _ _ Hrc)
      as (text & get & _ & Hparse & _ & _ & _ & Hip & _).
    cbn [configparser with_ipv6] in Hparse.
    destruct (configparser e (text_read text)) as [|get0]; [done|].
    injection Hparse as <-.
    cbv [String.eqb Ascii.eqb Bool.eqb andb] in Hip.
    by rewrite strip_all_space in Hip. }
  split; [done|]. split; [by apply resolve_address_dynamic|].
  intros Hv. rewrite main_no_version by done.
  unfold bind at 1. rewrite Hrc.
  rewrite resolve_address_dynamic by done. unfold bind.
  rewrite get_ipv6_from_site_run. cbv zeta.
  set (P := λ _ : event, true).
  assert (Hgrow : ∀ ip st2,
    existsb is_lookup_request (trace st2) = true →
    existsb is_lookup_request
      (trace (compare_and_update c ip (with_ipv6 (Found ws) e) st2).2)
    = true).
  { intros ip st2 H2.
    destruct (within_compare_and_update P c ip (λ _ _, eq_refl)
                eq_refl eq_refl eq_refl (λ _, eq_refl)
                (with_ipv6 (Found ws) e) st2) as [(evs & -> & _) _].
    by rewrite existsb_app, H2. }
  assert (Hran : ∀ st2,
    existsb is_lookup_request
      (trace (ran (with_ipv6 (Found ws) e) st2
                (lookup_cmd (cfg_url_lookup c)))) = true).
  { intros st2. cbn [ran trace]. rewrite existsb_app. cbn.
    apply orb_true_r. }
  destruct (curl _ _) as [rc out|m]; [|apply Hran].
  destruct (rc =? 0)%Z.
  - apply Hgrow. cbn [logged trace]. by rewrite existsb_app, Hran.
  - cbn [snd logged trace]. by rewrite existsb_app, Hran.
Qed.

Lemma blank_static_address_is_dynamic_witness :
  all_space "   " = true
  ∧ main (with_ipv6 (Found "   ") silent_env) (boot (sample_files None))
    = main (with_ipv6 (Missing "No option") silent_env)
        (boot (sample_files None)).
Proof.
  split; [reflexivity|].
  exact (proj1 (blank_static_address_is_dynamic silent_env
                  (boot (sample_files None)) "   " "No option" eq_refl)).
Defined.

End blank_address.

(** * The two scenarios of the specification, run *)

Section scenarios.

(** No static address, no cache file, the lookup answers [2001:db8::1] and
    the update succeeds: the update is requested with that address and the
    cache file then holds it. *)
Example first_run :
  let e := sample_env ["update_ovh_ddns.py"] (Missing "")
             (client (Completed 0 ("2001:db8::1" +:+ nl)) (Completed 0 "")) in
  let r := main e (boot (sample_files None)) in
  r.1 = Ret tt
  ∧ List.filter update_or_store (trace r.2)
    = [EvRun (update_cmd "alice" "secret" "home.example.org" "2001:db8::1") 0;
       EvWrite IPV6_FILE "2001:db8::1"]
  ∧ fs r.2 !! IPV6_FILE = Some "2001:db8::1".
Proof. cbv zeta. split_and!; by vm_compute. Qed.

(** The static address equals the cached one: exit 0 after the skip
    message, and no client is started. *)
Example static_unchanged :
  let r := main static_env (boot (sample_files (Some "2001:db8::9"))) in
  r.1 = Exit 0
  ∧ existsb is_run (trace r.2) = false
  ∧ existsb (logs "No IPv6 change detected (2001:db8::9). Skipping update.")
      (trace r.2) = true.
Proof. cbv zeta. split_and!; by vm_compute. Qed.

End scenarios.

(** * The configuration loader, case by case *)

Section loader.

(** What [read_config] does with a file that exists and parses. *)
Lemma read_config_parsed p e st text get :
  fs st !! p = Some text →
  configparser e (text_read text) = Parsed get →
  read_config p e st =
  match config_error get with
  | None => (Ret (config_value get), opened st p)
  | Some m =>
      (Exit 1, logged e (opened st p) ("Error reading config file: " +:+ m))
  end.
Proof.
  intros Hp Hparse.
  unfold read_config, path_exists, config_read, read_text.
  unfold bind, emit, ask. cbn [fs trace ticks].
  rewrite bool_decide_true by eauto. cbn [negb fs trace ticks].
  rewrite Hp. cbn [fs trace ticks]. rewrite Hparse. unfold mret at 1.
  unfold try_except, bind, config_get, config_get_fallback, mret, raise, ask,
    sys_exit, config_error, config_value, opened.
  rewrite <- app_assoc. cbn [app].
  destruct (get "ovh" "username"); rewrite ?log_run; try done.
  destruct (get "ovh" "password"); rewrite ?log_run; try done.
  destruct (get "ovh" "hostname"); rewrite ?log_run; try done.
  destruct (get "ovh" "url_lookup"); rewrite ?log_run; try done;
    destruct (get "ovh" "ipv6"); rewrite ?log_run; done.
Qed.

Lemma read_config_garbled p e st text msg :
  fs st !! p = Some text →
  configparser e (text_read text) = ParseError msg →
  read_config p e st = (Raise (ConfigError msg), opened st p).
Proof.
  intros Hp Hparse.
  unfold read_config, path_exists, config_read, read_text.
  unfold bind, emit, ask. cbn [fs trace ticks].
  rewrite bool_decide_true by eauto. cbn [negb fs trace ticks].
  rewrite Hp. cbn [fs trace ticks]. rewrite Hparse.
  unfold raise, opened. by rewrite <- app_assoc.
Qed.

(** X1. A configuration file that exists, parses and raises on none of the
    five lookups is loaded as it stands: the three required values, the
    lookup URL or [http://ipconfig.io] when the option is missing, the
    trimmed static address or the empty string when the option is missing.
    Loading tests the file for existence and reads it, and does nothing
    else: no file changes, nothing is logged. *)
Theorem config_loads (p : string) (e : env) (st : state) (text : string)
    (get : string → string → lookup) :
  fs st !! p = Some text →
  configparser e (text_read text) = Parsed get →
  config_error get = None →
  let r := read_config p e st in
  r.1 = Ret (config_value get)
  ∧ get "ovh" "username" = Found (cfg_username (config_value get))
  ∧ get "ovh" "password" = Found (cfg_password (config_value get))
  ∧ get "ovh" "hostname" = Found (cfg_hostname (config_value get))
  ∧ (∀ m, get "ovh" "url_lookup" = Missing m →
          cfg_url_lookup (config_value get) = "http://ipconfig.io")
  ∧ (∀ m, get "ovh" "ipv6" = Missing m → cfg_ipv6 (config_value get) = "")
  ∧ (∀ v, get "ovh" "ipv6" = Found v →
          cfg_ipv6 (config_value get) = strip v)
  ∧ fs r.2 = fs st
  ∧ trace r.2 = trace st ++ [EvExists p; EvRead p]
  ∧ ticks r.2 = ticks st.
Proof.
  intros Hp Hparse Herr. cbv zeta.
  rewrite (read_config_parsed p e st text get) by done. rewrite Herr.
  unfold config_error in Herr. unfold config_value, cfg_username,
    cfg_password, cfg_hostname, cfg_url_lookup, cfg_ipv6. cbn [fst snd].
  destruct (get "ovh" "username"); [|done..].
  destruct (get "ovh" "password"); [|done..].
  destruct (get "ovh" "hostname"); [|done..].
  split_and!; try done; by intros ? ->.
Qed.

Lemma config_loads_witness :
  sample_files None !! "config.txt" = Some "[ovh]"
  ∧ config_error (sample_config (Missing "")) = None
  ∧ (read_config "config.txt" silent_env (boot (sample_files None))).1
    = Ret sample_loaded.
Proof.
  assert (H1 : fs (boot (sample_files None)) !! "config.txt" = Some "[ovh]")
    by reflexivity.
  assert (H2 : config_error (sample_config (Missing "")) = None)
    by reflexivity.
  split; [exact H1|]. split; [exact H2|].
  exact (proj1 (config_loads "config.txt" silent_env
                  (boot (sample_files None)) "[ovh]"
                  (sample_config (Missing "")) H1 eq_refl H2)).
Defined.

(** X2. [read_config] returns a configuration only in the case of X1:
    whenever it returns, the file existed and parsed, none of the five
    lookups raised, and the configuration is the one the parsed file stands
    for. *)
Theorem config_loads_only_valid (p : string) (e : env) (st : state)
    (c : config) (st1 : state) :
  read_config p e st = (Ret c, st1) →
  ∃ text get,
    fs st !! p = Some text
    ∧ configparser e (text_read text) = Parsed get
    ∧ config_error get = None
    ∧ c = config_value get
    ∧ st1 = opened st p.
Proof.
  intros H. destruct (fs st !! p) as [text|] eqn:Hp.
  2:{ by rewrite read_config_missing in H. }
  destruct (configparser e (text_read text)) as [msg|get] eqn:Hparse.
  { by rewrite (read_config_garbled p e st text msg) in H. }
  rewrite (read_config_parsed p e st text get) in H by done.
  exists text, get. destruct (config_error get); [done|].
  injection H as <- <-. done.
Qed.

Lemma config_loads_only_valid_witness :
  read_config "config.txt" silent_env (boot (sample_files None))
  = (Ret sample_loaded, opened (boot (sample_files None)) "config.txt")
  ∧ ∃ text get,
      fs (boot (sample_files None)) !! "config.txt" = Some text
      ∧ configparser silent_env (text_read text) = Parsed get
      ∧ config_error get = None
      ∧ sample_loaded = config_value get
      ∧ opened (boot (sample_files None)) "config.txt"
        = opened (boot (sample_files None)) "config.txt".
Proof.
  assert (H : read_config "config.txt" silent_env (boot (sample_files None))
              = (Ret sample_loaded,
                 opened (boot (sample_files None)) "config.txt"))
    by (vm_compute; reflexivity).
  split; [exact H|].
  exact (config_loads_only_valid _ _ _ _ _ H).
Defined.

(** X3. When one of the lookups raises (a required option is missing, or
    any option is broken), [read_config] logs the message of the first one
    that does, in the order username, password, hostname, url_lookup, ipv6,
    and exits with status 1; it touches neither the address cache nor the
    client. A run that gets past the version check ends there. *)
Theorem config_option_error_is_fatal (e : env) (files : gmap string string)
    (text : string) (get : string → string → lookup) (m : string) :
  files !! "config.txt" = Some text →
  configparser e (text_read text) = Parsed get →
  config_error get = Some m →
  let r := read_config "config.txt" e (boot files) in
  r.1 = Exit 1
  ∧ existsb (logs ("Error reading config file: " +:+ m)) (trace r.2) = true
  ∧ Forall (λ ev, touches IPV6_FILE ev = false ∧ is_run ev = false)
      (trace r.2)
  ∧ fs r.2 !! IPV6_FILE = files !! IPV6_FILE
  ∧ ("--version" ∉ argv e →
     main e (boot files) = (Exit 1, r.2)
     ∧ exit_status (main e (boot files)).1 = 1%Z).
Proof.
  intros Hp Hparse Herr. cbv zeta.
  rewrite (read_config_parsed _ e (boot files) text get) by done.
  rewrite Herr. cbn [fst snd]. split_and!; try done.
  - cbn [logged trace]. rewrite existsb_app, log_trace_logs.
    apply orb_true_r.
  - cbn [logged trace opened boot app]. do 2 (constructor; [done|]).
    eapply Forall_impl; [apply log_trace_only|].
    intros ev Hev. by destruct (log_only_elsewhere ev Hev) as (? & ? & ?).
  - by rewrite logged_fs_other.
  - intros Hv. rewrite main_no_version by done. unfold bind.
    rewrite (read_config_parsed _ e (boot files) text get) by done.
    by rewrite Herr.
Qed.

Lemma config_option_error_is_fatal_witness :
  sample_files None !! "config.txt" = Some "[ovh]"
  ∧ config_error nameless_config = Some "No option 'username'"
  ∧ (main nameless_env (boot (sample_files None))).1 = Exit 1.
Proof.
  assert (H1 : sample_files None !! "config.txt" = Some "[ovh]")
    by reflexivity.
  assert (H2 : config_error nameless_config = Some "No option 'username'")
    by reflexivity.
  assert (H : "--version" ∉ argv nameless_env).
  { intros [E|E]%elem_of_cons; [discriminate E|by apply elem_of_nil in E]. }
  split; [exact H1|]. split; [exact H2|].
  destruct (config_option_error_is_fatal nameless_env (sample_files None)
              "[ovh]" nameless_config _ H1 eq_refl H2)
    as (_ & _ & _ & _ & Hmain).
  destruct (Hmain H) as [-> _]. reflexivity.
Defined.

(** X4. [config.read] is called outside the [try] block: when the parser
    rejects the file, its exception leaves [read_config] and, past the
    version check, the process, which ends with status 1 without any access
    to the log file, the address cache or the client. *)
Theorem config_parse_error_is_not_logged (e : env)
    (files : gmap string string) (text msg : string) :
  files !! "config.txt" = Some text →
  configparser e (text_read text) = ParseError msg →
  read_config "config.txt" e (boot files)
  = (Raise (ConfigError msg), opened (boot files) "config.txt")
  ∧ ("--version" ∉ argv e →
     let r := main e (boot files) in
     r.1 = Raise (ConfigError msg)
     ∧ exit_status r.1 = 1%Z
     ∧ trace r.2 = [EvExists "config.txt"; EvRead "config.txt"]
     ∧ fs r.2 = files).
Proof.
  intros Hp Hparse.
  assert (H := read_config_garbled "config.txt" e (boot files) text msg
                 Hp Hparse).
  split; [done|]. intros Hv. cbv zeta.
  rewrite main_no_version by done. unfold bind. by rewrite H.
Qed.

Lemma config_parse_error_is_not_logged_witness :
  sample_files None !! "config.txt" = Some "[ovh]"
  ∧ read_config "config.txt" garbled_env (boot (sample_files None))
    = (Raise (ConfigError "File contains no section headers."),
       opened (boot (sample_files None)) "config.txt").
Proof.
  assert (H1 : sample_files None !! "config.txt" = Some "[ovh]")
    by reflexivity.
  split; [exact H1|].
  exact (proj1 (config_parse_error_is_not_logged garbled_env
                  (sample_files None) "[ovh]" _ H1 eq_refl)).
Defined.

End loader.

(** * Events and exit codes, by environment *)

Section behaves_facts.
Context (Q : env → Prop) (P : event → bool) (X : Z → bool).

Lemma behaves_still {A} (m : M A) :
  (∀ e st, (m e st).2 = st) → (∀ e st code, (m e st).1 ≠ Exit code) →
  behaves Q P X m.
Proof.
  intros Hst Hout e st _. split.
  - exists []. by rewrite Hst, app_nil_r.
  - intros code H. by apply Hout in H.
Qed.

Lemma behaves_mret {A} (a : A) : behaves Q P X (mret a).
Proof. by apply behaves_still. Qed.

Lemma behaves_ask : behaves Q P X ask.
Proof. by apply behaves_still. Qed.

Lemma behaves_raise {A} x : behaves Q P X (@raise A x).
Proof. by apply behaves_still. Qed.

Lemma behaves_sys_exit {A} code :
  X code = true → behaves Q P X (@sys_exit A code).
Proof.
  intros H e st _. split.
  - exists []. by rewrite app_nil_r.
  - by intros ? [= <-].
Qed.

Lemma behaves_emit ev : P ev = true → behaves Q P X (emit ev).
Proof.
  intros H e st _. split; [|done]. exists [ev]. split; [done|].
  by repeat constructor.
Qed.

Lemma behaves_bind {A B} (m : M A) (k : A → M B) :
  behaves Q P X m → (∀ a, behaves Q P X (k a)) → behaves Q P X (bind m k).
Proof.
  intros Hm Hk e st HQ. unfold bind.
  destruct (Hm e st HQ) as [(evs1 & Ht1 & Hp1) Hx1].
  destruct (m e st) as [[a|c|x] st1] eqn:E; cbn [fst snd] in *.
  - destruct (Hk a e st1 HQ) as [(evs2 & Ht2 & Hp2) Hx2]. split; [|done].
    exists (evs1 ++ evs2). rewrite Ht2, Ht1, app_assoc. split; [done|].
    by apply Forall_app.
  - split; [by exists evs1|]. intros code [= <-]. by apply Hx1.
  - split; [by exists evs1|done].
Qed.

Lemma behaves_try {A} (body : M A) caught handler :
  behaves Q P X body → (∀ x, behaves Q P X (handler x)) →
  behaves Q P X (try_except body caught handler).
Proof.
  intros Hm Hk e st HQ. unfold try_except.
  destruct (Hm e st HQ) as [(evs1 & Ht1 & Hp1) Hx1].
  destruct (body e st) as [[a|c|x] st1] eqn:E; cbn [fst snd] in *.
  - split; [by exists evs1|done].
  - split; [by exists evs1|]. intros code [= <-]. by apply Hx1.
  - destruct (caught x).
    + destruct (Hk x e st1 HQ) as [(evs2 & Ht2 & Hp2) Hx2]. split; [|done].
      exists (evs1 ++ evs2). rewrite Ht2, Ht1, app_assoc. split; [done|].
      by apply Forall_app.
    + split; [by exists evs1|done].
Qed.

Lemma behaves_path_exists p :
  P (EvExists p) = true → behaves Q P X (path_exists p).
Proof.
  intros H. apply behaves_bind; [by apply behaves_emit|].
  intros _. by apply behaves_still.
Qed.

Lemma behaves_read_text p :
  P (EvRead p) = true → behaves Q P X (read_text p).
Proof.
  intros H. apply behaves_bind; [by apply behaves_emit|].
  intros _. apply behaves_still; intros e st; by destruct (fs st !! p).
Qed.

Lemma behaves_write_text p text :
  P (EvWrite p text) = true → behaves Q P X (write_text p text).
Proof.
  intros H. apply behaves_bind; [by apply behaves_emit|].
  intros _ e st _. split; [|done]. exists []. by rewrite app_nil_r.
Qed.

Lemma behaves_subprocess_run cmd :
  (∀ flags, P (EvRun cmd flags) = true) → behaves Q P X (subprocess_run cmd).
Proof.
  intros H. apply behaves_bind; [apply behaves_ask|]. intros e.
  apply behaves_bind; [by apply behaves_emit|]. intros _.
  destruct (curl e cmd) as [rc out|msg]; [|apply behaves_raise].
  destruct (rc =? 0)%Z; [apply behaves_mret|apply behaves_raise].
Qed.

Lemma behaves_config_get c s o : behaves Q P X (config_get c s o).
Proof.
  unfold config_get.
  destruct (c s o); [apply behaves_mret|apply behaves_raise..].
Qed.

Lemma behaves_config_get_fallback c s o d :
  behaves Q P X (config_get_fallback c s o d).
Proof.
  unfold config_get_fallback.
  destruct (c s o); [apply behaves_mret..|apply behaves_raise].
Qed.

(** From here on, in the environments of [Q], [P] allows what [log] does and
    the file accesses and commands of the script, and [X] allows the exit
    code 1. *)
Context (P_log : ∀ e st m, Q e →
                   Forall (λ ev, P ev = true) (log_trace e st m)).
Context (P_exists : ∀ p, P (EvExists p) = true).
Context (P_read : ∀ p, P (EvRead p) = true).
Context (P_run : ∀ cmd flags, P (EvRun cmd flags) = true).
Context (P_store : ∀ text, P (EvWrite IPV6_FILE text) = true).
Context (X_one : X 1 = true).

Lemma behaves_log m : behaves Q P X (log m).
Proof.
  intros e st HQ. rewrite log_run. split; [|done].
  exists (log_trace e st m). split; [done|]. by apply P_log.
Qed.

Lemma behaves_log_exit {A} m : behaves Q P X (log m;; @sys_exit A 1).
Proof.
  apply behaves_bind; [apply behaves_log|]. intros _.
  by apply behaves_sys_exit.
Qed.

Lemma behaves_read_config p : behaves Q P X (read_config p).
Proof.
  unfold read_config.
  apply behaves_bind; [by apply behaves_path_exists|]. intros there.
  destruct (negb there); [apply behaves_log_exit|].
  apply behaves_bind.
  { apply behaves_bind; [by apply behaves_read_text|]. intros text.
    apply behaves_bind; [apply behaves_ask|]. intros e.
    destruct (configparser e text); [apply behaves_raise|apply behaves_mret]. }
  intros c. apply behaves_try.
  - repeat (apply behaves_bind;
      [apply behaves_config_get || apply behaves_config_get_fallback
      |intros ?]).
    apply behaves_mret.
  - intros x. apply behaves_bind; [apply behaves_ask|]. intros e.
    apply behaves_log_exit.
Qed.

Lemma behaves_get_ipv6_from_site url : behaves Q P X (get_ipv6_from_site url).
Proof.
  unfold get_ipv6_from_site. apply behaves_try.
  - apply behaves_bind; [by apply behaves_subprocess_run|]. intros out.
    apply behaves_bind; [apply behaves_log|]. intros _. apply behaves_mret.
  - intros x. apply behaves_bind; [apply behaves_ask|]. intros e.
    apply behaves_log_exit.
Qed.

Lemma behaves_resolve_address c : behaves Q P X (resolve_address c).
Proof.
  unfold resolve_address.
  destruct (String.eqb _ _);
    [apply behaves_get_ipv6_from_site|apply behaves_mret].
Qed.

Lemma behaves_update_ovh_dns u p h ip :
  behaves Q P X (update_ovh_dns u p h ip).
Proof.
  unfold update_ovh_dns.
  apply behaves_bind; [apply behaves_log|]. intros _. apply behaves_try.
  - apply behaves_bind; [by apply behaves_subprocess_run|]. intros _.
    apply behaves_log.
  - intros x. apply behaves_bind; [apply behaves_ask|]. intros e.
    apply behaves_log_exit.
Qed.

Lemma behaves_compare_and_update c ip :
  X 0 = true → behaves Q P X (compare_and_update c ip).
Proof.
  intros X_zero. unfold compare_and_update.
  apply behaves_bind.
  { unfold read_last_ipv6.
    apply behaves_bind; [by apply behaves_path_exists|]. intros there.
    destruct there; [|apply behaves_mret].
    apply behaves_bind; [by apply behaves_read_text|]. intros text.
    apply behaves_mret. }
  intros last. destruct (_ && _).
  - apply behaves_bind; [apply behaves_log|]. intros _.
    by apply behaves_sys_exit.
  - apply behaves_bind; [apply behaves_update_ovh_dns|]. intros _.
    apply behaves_bind; [by apply behaves_write_text|]. intros _.
    apply behaves_log.
Qed.

(** The whole run, where [Q] rules the version flag out or [P] allows the
    version to be printed. *)
Lemma behaves_main :
  X 0 = true →
  (∀ e, Q e → "--version" ∈ argv e →
        P (EvPrint "update_ovh_ddns version 1.0") = true) →
  behaves Q P X main.
Proof.
  intros X_zero Hver e st HQ.
  destruct (decide ("--version" ∈ argv e)) as [Hv|Hv].
  { rewrite main_version by done. cbn [fst snd trace]. split.
    - eexists. split; [done|]. repeat constructor. by apply (Hver e).
    - by intros ? [= <-]. }
  rewrite main_no_version by done.
  revert e st HQ Hv.
  assert (H : behaves Q P X
                (config <- read_config "config.txt";;
                 ipv6 <- resolve_address config;;
                 compare_and_update config ipv6)).
  { apply behaves_bind; [apply behaves_read_config|]. intros c.
    apply behaves_bind; [apply behaves_resolve_address|]. intros ip.
    by apply behaves_compare_and_update. }
  intros e st HQ _. by apply H.
Qed.

End behaves_facts.

(** * The whole run: files, console, exit status *)

Section whole_run.

Lemma within_main (P : event → bool) :
  (∀ ev, log_only ev = true → P ev = true) →
  P (EvExists "config.txt") = true → P (EvRead "config.txt") = true →
  P (EvExists IPV6_FILE) = true → P (EvRead IPV6_FILE) = true →
  (∀ text, P (EvWrite IPV6_FILE text) = true) →
  (∀ cmd flags, P (EvRun cmd flags) = true) →
  within P main.
Proof.
  intros Hlog Hce Hcr Hie Hir Hiw Hrun.
  assert (H : within P
                (config <- read_config "config.txt";;
                 ipv6 <- resolve_address config;;
                 compare_and_update config ipv6)).
  { apply within_bind; [by apply within_read_config|]. intros c.
    apply within_bind.
    - unfold resolve_address. destruct (String.eqb _ _);
        [by apply within_get_ipv6_from_site|apply within_mret].
    - intros ip. by apply within_compare_and_update. }
  intros e st. destruct (decide ("--version" ∈ argv e)) as [Hv|Hv].
  - rewrite main_version by done. cbn [snd trace fs]. split; [|done].
    eexists. split; [done|]. repeat constructor. by apply Hlog.
  - rewrite main_no_version by done. apply H.
Qed.

(** X5. Whatever the environment and the files, a run writes no file but
    the log file and the address cache: every write event of the run is on
    one of the two, and every other file, the configuration file included,
    is afterwards as it was. *)
Theorem main_writes_only_its_files (e : env) (st : state) :
  (∃ evs, trace (main e st).2 = trace st ++ evs
          ∧ Forall (λ ev, writes_own_files ev = true) evs)
  ∧ (∀ p, p ≠ LOG_FILE → p ≠ IPV6_FILE →
          fs (main e st).2 !! p = fs st !! p)
  ∧ fs (main e st).2 !! "config.txt" = fs st !! "config.txt".
Proof.
  assert (H : within writes_own_files main).
  { apply within_main; try done.
    intros [p|p|p t|l|cmd fl]; cbn; try done. by intros ->. }
  destruct (H e st) as [Hev Hfs]. split; [done|].
  assert (Hp : ∀ p, p ≠ LOG_FILE → p ≠ IPV6_FILE →
                 fs (main e st).2 !! p = fs st !! p).
  { intros p H1 H2. apply Hfs. intros text. cbn.
    apply String.eqb_neq in H1 as ->. by apply String.eqb_neq in H2 as ->. }
  split; [done|]. by apply Hp.
Qed.

(** X6. The exit status of a run is 0 or 1, whatever happens. *)
Theorem exit_status_is_zero_or_one (e : env) (st : state) :
  exit_status (main e st).1 = 0%Z ∨ exit_status (main e st).1 = 1%Z.
Proof.
  assert (H : behaves (λ _, True) (λ _, true) zero_or_one main).
  { apply behaves_main; try done. intros. by apply Forall_true. }
  destruct (H e st I) as [_ Hx].
  destruct (main e st).1 as [[]|code|x]; cbn; [by left| |by right].
  specialize (Hx code eq_refl). unfold zero_or_one in Hx.
  apply orb_prop in Hx as [->%Z.eqb_eq| ->%Z.eqb_eq]; auto.
Qed.



End whole_run.

(** * From the resolved address to the cache *)

Section outcome_of_update.

Lemma resolve_current_inv e st c ip st1 :
  resolve_current e st = (Ret (c, ip), st1) →
  ("--version" ∉ argv e)
  ∧ ∃ st0, read_config "config.txt" e st = (Ret c, st0)
           ∧ resolve_address c e st0 = (Ret ip, st1).
Proof.
  unfold resolve_current. unfold bind at 1. unfold ask.
  destruct (decide ("--version" ∈ argv e)) as [Hv|Hv].
  { by rewrite bool_decide_true. }
  rewrite bool_decide_false by done. intros H. split; [done|].
  unfold bind in H.
  destruct (read_config "config.txt" e st) as [[c0| |] st0]; [|done..].
  change (if String.eqb (cfg_ipv6 c0) ""
          then get_ipv6_from_site (cfg_url_lookup c0)
          else mret (cfg_ipv6 c0))
    with (resolve_address c0) in H.
  destruct (resolve_address c0 e st0) as [[ip0| |] st2] eqn:E; [|done..].
  injection H as <- <- <-. by exists st0.
Qed.

Lemma resolve_current_cases e st c ip st1 :
  resolve_current e st = (Ret (c, ip), st1) →
  strip ip = ip
  ∧ ((cfg_ipv6 c ≠ "" ∧ ip = cfg_ipv6 c)
     ∨ (cfg_ipv6 c = ""
        ∧ ∃ out, curl e (lookup_cmd (cfg_url_lookup c)) = Completed 0 out
                 ∧ ip = strip out)).
Proof.
  intros H. destruct (resolve_current_inv _ _ _ _ _ H)
    as (_ & st0 & Hrc & Hra).
  destruct (read_config_loaded _ _ _ _ _ Hrc)
    as (_ & get & _ & _ & _ & _ & _ & Hip & _).
  destruct (decide (cfg_ipv6 c = "")) as [Hempty|Hstatic].
  - rewrite resolve_address_dynamic, get_ipv6_from_site_run in Hra by done.
    cbv zeta in Hra.
    destruct (curl e (lookup_cmd (cfg_url_lookup c))) as [rc out|msg];
      [|done].
    destruct (Z.eqb_spec rc 0) as [->|Hrc0]; [|done].
    injection Hra as <- _. split; [apply strip_idem|]. right. eauto.
  - rewrite resolve_address_static in Hra by done. injection Hra as <- _.
    split; [|by left]. rewrite Hip. apply strip_idem.
Qed.

(** X8. The address a run resolves is always trimmed, and it is either the
    static address of the loaded configuration, when that is not empty, or
    the trimmed output of a lookup command that exited with status 0. *)
Theorem resolved_address_is_trimmed (e : env) (st : state) (c : config)
    (ip : string) (st1 : state) :
  resolve_current e st = (Ret (c, ip), st1) →
  strip ip = ip
  ∧ ((cfg_ipv6 c ≠ "" ∧ ip = cfg_ipv6 c)
     ∨ (cfg_ipv6 c = ""
        ∧ ∃ out, curl e (lookup_cmd (cfg_url_lookup c)) = Completed 0 out
                 ∧ ip = strip out)).
Proof. apply resolve_current_cases. Qed.

Lemma resolved_address_is_trimmed_witness :
  resolve_current working_env (boot (sample_files None))
  = (Ret (sample_loaded, "2001:db8::1"),
     (resolve_current working_env (boot (sample_files None))).2)
  ∧ strip "2001:db8::1" = "2001:db8::1".
Proof.
  assert (H : resolve_current working_env (boot (sample_files None))
              = (Ret (sample_loaded, "2001:db8::1"),
                 (resolve_current working_env
                    (boot (sample_files None))).2))
    by (vm_compute; reflexivity).
  split; [exact H|].
  exact (proj1 (resolved_address_is_trimmed _ _ _ _ _ H)).
Defined.

Lemma last_known_reached e files c ip st1 :
  resolve_current e (boot files) = (Ret (c, ip), st1) →
  last_known (fs st1) = last_known files.
Proof.
  intros H. destruct (main_reaches_compare e files c ip st1 H)
    as (_ & _ & _ & Hfs).
  unfold last_known. by rewrite Hfs.
Qed.

(** The run of a process that does not skip. *)
Lemma main_updates e files c ip st1 :
  resolve_current e (boot files) = (Ret (c, ip), st1) →
  last_known files ≠ Some ip ∨ ip = "" →
  main e (boot files) = update_and_store c ip e (looked st1).
Proof.
  intros H Hdiff.
  destruct (main_reaches_compare e files c ip st1 H) as (-> & _).
  rewrite compare_and_update_run, (last_known_reached e files c ip st1 H).
  destruct Hdiff as [Hdiff| ->].
  - by rewrite truthy_equal_false.
  - destruct (last_known files) as [[|a l]|];
      first [done | by rewrite bool_decide_false].
Qed.

(** X9. When a run does not skip and the update command exits with status
    0, the run returns (exit status 0), a log entry says that the address
    was stored, and the cache file holds the resolved address as the text
    layer writes it; unless the address holds a carriage return, the last
    known address of the next run is that address. *)
Theorem successful_update_is_stored (e : env) (files : gmap string string)
    (c : config) (ip : string) (st1 : state) (out : string) :
  resolve_current e (boot files) = (Ret (c, ip), st1) →
  last_known files ≠ Some ip ∨ ip = "" →
  curl e (update_cmd (cfg_username c) (cfg_password c) (cfg_hostname c) ip)
  = Completed 0 out →
  let r := main e (boot files) in
  r.1 = Ret tt
  ∧ exit_status r.1 = 0%Z
  ∧ existsb (logs ("Stored new IPv6 address: " +:+ ip)) (trace r.2) = true
  ∧ fs r.2 !! IPV6_FILE = Some (text_write (nt e) ip)
  ∧ (lacks CR ip = true → last_known (fs r.2) = Some ip).
Proof.
  intros H Hdiff Hrun. cbv zeta.
  destruct (resolve_current_cases e (boot files) c ip st1 H) as [Hstrip _].
  rewrite (main_updates e files c ip st1) by done.
  rewrite update_and_store_run. cbv zeta. rewrite Hrun.
  cbn [Z.eqb fst snd exit_status].
  assert (Hfs : fs (logged e
                      (stored e
                         (logged e
                            (ran e
                               (logged e (looked st1)
                                  ("Updating OVH DDNS for "
                                   +:+ cfg_hostname c +:+ " -> " +:+ ip))
                               (update_cmd (cfg_username c) (cfg_password c)
                                  (cfg_hostname c) ip))
                            "OVH DDNS update complete.") ip)
                      ("Stored new IPv6 address: " +:+ ip)) !! IPV6_FILE
                = Some (text_write (nt e) ip)).
  { rewrite logged_fs_other by done. cbn [stored fs].
    by rewrite lookup_insert_eq, Hstrip. }
  split_and!; try done.
  - cbn [logged trace]. rewrite existsb_app, log_trace_logs.
    apply orb_true_r.
  - intros HCR. unfold last_known. rewrite Hfs. cbn.
    by rewrite text_read_write, Hstrip.
Qed.

Lemma successful_update_is_stored_witness :
  resolve_current working_env (boot (sample_files None))
  = (Ret (sample_loaded, "2001:db8::1"),
     (resolve_current working_env (boot (sample_files None))).2)
  ∧ (last_known (sample_files None) ≠ Some "2001:db8::1"
     ∨ "2001:db8::1" = "")
  ∧ fs (main working_env (boot (sample_files None))).2 !! IPV6_FILE
    = Some "2001:db8::1".
Proof.
  assert (H : resolve_current working_env (boot (sample_files None))
              = (Ret (sample_loaded, "2001:db8::1"),
                 (resolve_current working_env
                    (boot (sample_files None))).2))
    by (vm_compute; reflexivity).
  assert (H2 : last_known (sample_files None) ≠ Some "2001:db8::1"
               ∨ "2001:db8::1" = "")
    by (left; vm_compute; discriminate).
  split; [exact H|]. split; [exact H2|].
  exact (proj1 (proj2 (proj2 (proj2
    (successful_update_is_stored working_env (sample_files None) _ _ _ ""
       H H2 eq_refl))))).
Defined.

(** The run of a process that skips. *)
Lemma main_skips e files c ip st1 :
  resolve_current e (boot files) = (Ret (c, ip), st1) →
  last_known files = Some ip → ip ≠ "" →
  main e (boot files) = skip_update ip e (looked st1).
Proof.
  intros H Hlast Hip.
  destruct (main_reaches_compare e files c ip st1 H) as (-> & _).
  rewrite compare_and_update_run, (last_known_reached e files c ip st1 H).
  rewrite Hlast, bool_decide_true by done. by destruct ip.
Qed.

(** What a run that returned has left in the cache. *)
Lemma returned_run_stored e files st c ip st1 :
  main e (boot files) = (Ret tt, st) →
  resolve_current e (boot files) = (Ret (c, ip), st1) →
  fs st !! IPV6_FILE = Some (text_write (nt e) ip).
Proof.
  intros Hmain H.
  destruct (resolve_current_cases e (boot files) c ip st1 H) as [Hstrip _].
  destruct (main_reaches_compare e files c ip st1 H) as (Heq & _).
  rewrite Heq, compare_and_update_run in Hmain.
  destruct (_ && _); [by rewrite skip_update_run in Hmain|].
  rewrite update_and_store_run in Hmain. cbv zeta in Hmain.
  destruct (curl e _) as [rc out|msg]; [|done].
  destruct (rc =? 0)%Z; [|done]. injection Hmain as <-.
  rewrite logged_fs_other by done. cbn [stored fs].
  by rewrite lookup_insert_eq, Hstrip.
Qed.

(** X10. Running twice is running once: after a run that returned, a next
    run on the files it left, in any environment in which the same address
    is resolved, skips, provided the address is not empty and holds no
    carriage return: it exits with status 0, issues no update request and
    leaves the cache file as it is. *)
Theorem next_run_skips (e e2 : env) (files : gmap string string)
    (st : state) (c c2 : config) (ip : string) (st1 st2 : state) :
  main e (boot files) = (Ret tt, st) →
  resolve_current e (boot files) = (Ret (c, ip), st1) →
  resolve_current e2 (boot (fs st)) = (Ret (c2, ip), st2) →
  ip ≠ "" →
  lacks CR ip = true →
  let r := main e2 (boot (fs st)) in
  r.1 = Exit 0
  ∧ List.filter update_or_store (trace r.2) = []
  ∧ fs r.2 !! IPV6_FILE = fs st !! IPV6_FILE.
Proof.
  intros Hmain H1 H2 Hip HCR. cbv zeta.
  destruct (resolve_current_cases e (boot files) c ip st1 H1) as [Hstrip _].
  assert (Hlast : last_known (fs st) = Some ip).
  { unfold last_known.
    rewrite (returned_run_stored e files st c ip st1) by done. cbn.
    by rewrite text_read_write, Hstrip. }
  destruct (main_reaches_compare e2 (fs st) c2 ip st2 H2)
    as (_ & Hnone & _ & Hfs).
  rewrite (main_skips e2 (fs st) c2 ip st2) by done.
  rewrite skip_update_run. cbn [fst snd]. split_and!; [done| |].
  - by rewrite filter_logged, filter_looked
      by (done || apply update_or_store_log).
  - by rewrite logged_fs_other.
Qed.

Lemma next_run_skips_witness :
  let st := (main working_env (boot (sample_files None))).2 in
  main working_env (boot (sample_files None)) = (Ret tt, st)
  ∧ "2001:db8::1" ≠ ""
  ∧ lacks CR "2001:db8::1" = true
  ∧ (main working_env (boot (fs st))).1 = Exit 0.
Proof.
  cbv zeta.
  assert (H0 : main working_env (boot (sample_files None))
               = (Ret tt, (main working_env (boot (sample_files None))).2))
    by (vm_compute; reflexivity).
  assert (H1 : resolve_current working_env (boot (sample_files None))
               = (Ret (sample_loaded, "2001:db8::1"),
                  (resolve_current working_env
                     (boot (sample_files None))).2))
    by (vm_compute; reflexivity).
  assert (H2 : resolve_current working_env
                 (boot (fs (main working_env
                              (boot (sample_files None))).2))
               = (Ret (sample_loaded, "2001:db8::1"),
                  (resolve_current working_env
                     (boot (fs (main working_env
                                  (boot (sample_files None))).2))).2))
    by (vm_compute; reflexivity).
  assert (H3 : "2001:db8::1" ≠ "") by discriminate.
  assert (H4 : lacks CR "2001:db8::1" = true) by reflexivity.
  split; [exact H0|]. split; [exact H3|]. split; [exact H4|].
  exact (proj1 (next_run_skips _ _ _ _ _ _ _ _ _ H0 H1 H2 H3 H4)).
Defined.

(** X11. When a run does not skip and the update command fails: on a
    non-zero exit status the failure is logged, and that is the last thing
    the run does; when the command cannot be started the exception is not
    caught, the attempt is the last event of the run and the process ends
    with status 1. Either way the cache file is as it was. *)
Theorem update_failure_modes (e : env) (files : gmap string string)
    (c : config) (ip : string) (st1 : state) :
  resolve_current e (boot files) = (Ret (c, ip), st1) →
  last_known files ≠ Some ip ∨ ip = "" →
  let cmd := update_cmd (cfg_username c) (cfg_password c) (cfg_hostname c) ip in
  let asked :=
    ran e (logged e (looked st1)
             ("Updating OVH DDNS for " +:+ cfg_hostname c +:+ " -> " +:+ ip))
      cmd in
  let r := main e (boot files) in
  (∀ rc out, curl e cmd = Completed rc out → rc ≠ 0%Z →
     r = (Exit 1,
          logged e asked
            ("Failed to update OVH DDNS: "
             +:+ str_called_process_error e cmd rc))
     ∧ existsb
         (logs ("Failed to update OVH DDNS: "
                +:+ str_called_process_error e cmd rc)) (trace r.2) = true
     ∧ fs r.2 !! IPV6_FILE = files !! IPV6_FILE)
  ∧ (∀ msg, curl e cmd = NotStarted msg →
     r = (Raise (OSError msg), asked)
     ∧ exit_status r.1 = 1%Z
     ∧ last (trace r.2) = Some (EvRun cmd (creationflags e))
     ∧ fs r.2 !! IPV6_FILE = files !! IPV6_FILE).
Proof.
  intros H Hdiff. cbv zeta.
  destruct (main_reaches_compare e files c ip st1 H) as (_ & _ & _ & Hfs).
  rewrite (main_updates e files c ip st1) by done.
  rewrite update_and_store_run. cbv zeta. split.
  - intros rc out -> Hrc. apply Z.eqb_neq in Hrc as ->. cbn [fst snd].
    split_and!; [done| |].
    + cbn [logged trace]. rewrite existsb_app, log_trace_logs.
      apply orb_true_r.
    + rewrite logged_fs_other by done. cbn [ran fs].
      by rewrite logged_fs_other.
  - intros msg ->. cbn [fst snd exit_status]. split_and!; [done|done| |].
    + cbn [ran trace]. apply last_snoc.
    + cbn [ran fs]. by rewrite logged_fs_other.
Qed.

Lemma update_failure_modes_witness :
  resolve_current half_env (boot (sample_files None))
  = (Ret (sample_loaded, "2001:db8::1"),
     (resolve_current half_env (boot (sample_files None))).2)
  ∧ (last_known (sample_files None) ≠ Some "2001:db8::1"
     ∨ "2001:db8::1" = "")
  ∧ exit_status (main half_env (boot (sample_files None))).1 = 1%Z.
Proof.
  assert (H : resolve_current half_env (boot (sample_files None))
              = (Ret (sample_loaded, "2001:db8::1"),
                 (resolve_current half_env (boot (sample_files None))).2))
    by (vm_compute; reflexivity).
  assert (H2 : last_known (sample_files None) ≠ Some "2001:db8::1"
               ∨ "2001:db8::1" = "")
    by (left; vm_compute; discriminate).
  split; [exact H|]. split; [exact H2|].
  exact (proj1 (proj2
    (proj2 (update_failure_modes half_env (sample_files None) _ _ _ H H2)
       _ eq_refl))).
Defined.

End outcome_of_update.

(** * What the exit status and the client calls tell *)

Section status_and_calls.

Lemma resolve_current_exits e st code :
  "--version" ∉ argv e → (resolve_current e st).1 = Exit code → code = 1%Z.
Proof.
  intros Hv.
  assert (H : behaves (λ _, True) (λ _, true) (Z.eqb 1)
                (config <- read_config "config.txt";;
                 ipv6 <- resolve_address config;;
                 mret (config, ipv6))).
  { assert (Hlog : ∀ (e' : env) (st' : state) (m : string), True →
              Forall (λ ev, (λ _ : event, true) ev = true)
                (log_trace e' st' m)) by (intros; by apply Forall_true).
    apply behaves_bind; [by apply behaves_read_config|]. intros c.
    apply behaves_bind; [by apply behaves_resolve_address|]. intros ip.
    apply behaves_mret. }
  destruct (H e st I) as [_ Hx].
  unfold resolve_current. unfold bind at 1. unfold ask.
  rewrite bool_decide_false by done. intros Hexit.
  symmetry. apply Z.eqb_eq, Hx. exact Hexit.
Qed.

(** X12. Past the version check, a zero exit status means that the cache
    agrees with the address the run resolved: either the run skipped,
    because the last known address was that address, and left the cache
    file alone, or it returned after an update, and the cache file holds the
    address. *)
Theorem zero_status_means_in_sync (e : env) (files : gmap string string) :
  "--version" ∉ argv e →
  exit_status (main e (boot files)).1 = 0%Z →
  ∃ c ip st1,
    resolve_current e (boot files) = (Ret (c, ip), st1)
    ∧ (((main e (boot files)).1 = Exit 0
        ∧ last_known files = Some ip ∧ ip ≠ ""
        ∧ fs (main e (boot files)).2 !! IPV6_FILE = files !! IPV6_FILE)
       ∨ ((main e (boot files)).1 = Ret tt
          ∧ fs (main e (boot files)).2 !! IPV6_FILE
            = Some (text_write (nt e) ip))).
Proof.
  intros Hv Hzero.
  destruct (resolve_current e (boot files)) as [[[c ip]|code|x] st1] eqn:H.
  - exists c, ip, st1. split; [done|].
    destruct (main_reaches_compare e files c ip st1 H) as (Heq & _ & _ & Hfs).
    destruct (decide (last_known files = Some ip ∧ ip ≠ "")) as [[Hl Hip]|Hno].
    + left. rewrite (main_skips e files c ip st1) by done.
      rewrite skip_update_run. cbn [fst snd]. split_and!; try done.
      by rewrite logged_fs_other.
    + right.
      assert (Hdiff : last_known files ≠ Some ip ∨ ip = "").
      { destruct (decide (ip = "")); [by right|]. left. intros Hl.
        by apply Hno. }
      rewrite (main_updates e files c ip st1) in Hzero |- * by done.
      rewrite update_and_store_run in Hzero |- *. cbv zeta in Hzero |- *.
      destruct (resolve_current_cases e (boot files) c ip st1 H)
        as [Hstrip _].
      destruct (curl e _) as [rc out|msg]; [|done].
      destruct (rc =? 0)%Z; [|done]. cbn [fst snd]. split; [done|].
      rewrite logged_fs_other by done. cbn [stored fs].
      by rewrite lookup_insert_eq, Hstrip.
  - rewrite main_split in Hzero. unfold bind in Hzero. rewrite H in Hzero.
    cbn in Hzero. subst code.
    assert (Hone := resolve_current_exits e (boot files) 0%Z Hv).
    rewrite H in Hone. by specialize (Hone eq_refl).
  - rewrite main_split in Hzero. unfold bind in Hzero. by rewrite H in Hzero.
Qed.

Lemma zero_status_means_in_sync_witness :
  ("--version" ∉ argv working_env)
  ∧ exit_status (main working_env (boot (sample_files None))).1 = 0%Z
  ∧ ∃ c ip st1,
      resolve_current working_env (boot (sample_files None))
      = (Ret (c, ip), st1)
      ∧ (((main working_env (boot (sample_files None))).1 = Exit 0
          ∧ last_known (sample_files None) = Some ip ∧ ip ≠ ""
          ∧ fs (main working_env (boot (sample_files None))).2 !! IPV6_FILE
            = sample_files None !! IPV6_FILE)
         ∨ ((main working_env (boot (sample_files None))).1 = Ret tt
            ∧ fs (main working_env (boot (sample_files None))).2 !! IPV6_FILE
              = Some (text_write (nt working_env) ip))).
Proof.
  assert (H1 : "--version" ∉ argv working_env).
  { intros [E|E]%elem_of_cons; [discriminate E|by apply elem_of_nil in E]. }
  assert (H2 : exit_status (main working_env (boot (sample_files None))).1
               = 0%Z) by (vm_compute; reflexivity).
  split; [exact H1|]. split; [exact H2|].
  exact (zero_status_means_in_sync working_env (sample_files None) H1 H2).
Defined.

Lemma within_filter (f : event → bool) {A} (m : M A) e st :
  within (λ ev, negb (f ev)) m →
  List.filter f (trace (m e st).2) = List.filter f (trace st).
Proof.
  intros H. destruct (H e st) as [(evs & -> & Hevs) _].
  rewrite List.filter_app, (filter_none f evs), app_nil_r; [done|].
  eapply Forall_impl; [exact Hevs|]. intros ev. by intros ->%negb_true_iff.
Qed.

Lemma is_run_log ev : log_only ev = true → is_run ev = false.
Proof. by destruct ev. Qed.

Lemma read_config_runs p e st :
  List.filter is_run (trace (read_config p e st).2)
  = List.filter is_run (trace st).
Proof.
  apply within_filter, within_read_config; [|done..].
  intros ev Hev. by rewrite is_run_log.
Qed.

Lemma resolve_address_runs c e st :
  ∃ lookups,
    List.filter is_run (trace (resolve_address c e st).2)
    = List.filter is_run (trace st) ++ lookups
    ∧ length lookups ≤ 1
    ∧ Forall (λ ev, is_lookup_request ev = true) lookups.
Proof.
  destruct (decide (cfg_ipv6 c = "")) as [Hempty|Hstatic].
  - exists [EvRun (lookup_cmd (cfg_url_lookup c)) (creationflags e)].
    split; [|split; [done|by repeat constructor]].
    rewrite resolve_address_dynamic, get_ipv6_from_site_run by done.
    cbv zeta.
    destruct (curl e _) as [rc out|msg]; [|cbn [snd]; by rewrite filter_ran].
    destruct (rc =? 0)%Z; cbn [snd];
      by rewrite filter_logged, filter_ran by apply is_run_log.
  - exists []. rewrite resolve_address_static by done.
    rewrite app_nil_r. cbn. split_and!; [done|lia|constructor].
Qed.

Lemma compare_and_update_runs c ip e st :
  ∃ updates,
    List.filter is_run (trace (compare_and_update c ip e st).2)
    = List.filter is_run (trace st) ++ updates
    ∧ length updates ≤ 1
    ∧ Forall (λ ev, is_update_request ev = true) updates.
Proof.
  rewrite compare_and_update_run. destruct (_ && _).
  - exists []. rewrite skip_update_run. cbn [snd].
    rewrite filter_logged, filter_looked by (done || apply is_run_log).
    rewrite app_nil_r. cbn. split_and!; [done|lia|constructor].
  - exists [EvRun (update_cmd (cfg_username c) (cfg_password c)
                     (cfg_hostname c) ip) (creationflags e)].
    split; [|split; [done|by repeat constructor]].
    rewrite update_and_store_run. cbv zeta.
    destruct (curl e _) as [rc out|msg].
    + destruct (rc =? 0)%Z; cbn [snd].
      * rewrite !filter_logged, !filter_stored, !filter_logged, !filter_ran,
          !filter_logged, !filter_looked
          by (done || apply is_run_log).
        cbn. by rewrite app_nil_r.
      * by rewrite !filter_logged, !filter_ran, !filter_logged,
          !filter_looked by (done || apply is_run_log).
    + cbn [snd]. by rewrite !filter_ran, !filter_logged, !filter_looked
        by (done || apply is_run_log).
Qed.

(** X13. A run starts the external client at most twice and never retries:
    its client calls are at most one lookup command followed by at most one
    update command. *)
Theorem at_most_one_lookup_then_one_update (e : env)
    (files : gmap string string) :
  ∃ lookups updates,
    List.filter is_run (trace (main e (boot files)).2) = lookups ++ updates
    ∧ length lookups ≤ 1
    ∧ length updates ≤ 1
    ∧ Forall (λ ev, is_lookup_request ev = true) lookups
    ∧ Forall (λ ev, is_update_request ev = true) updates.
Proof.
  destruct (decide ("--version" ∈ argv e)) as [Hv|Hv].
  { exists [], []. rewrite main_version by done. cbn.
    split_and!; [done|lia|lia|constructor|constructor]. }
  rewrite main_no_version by done. rewrite (bind_run (read_config _)).
  assert (Hrc := read_config_runs "config.txt" e (boot files)).
  destruct (read_config "config.txt" e (boot files)) as [[c| |] st0];
    cbn [snd boot trace List.filter] in Hrc;
    [|exists [], []; cbn [snd]; rewrite Hrc; cbn;
      split_and!; [done|lia|lia|constructor|constructor]..].
  rewrite (bind_run (resolve_address c)).
  destruct (resolve_address_runs c e st0) as (lookups & Hl & Hl1 & HlP).
  rewrite Hrc in Hl. cbn [app] in Hl.
  destruct (resolve_address c e st0) as [[ip| |] st1]; cbn [snd] in Hl;
    [|exists lookups, []; cbn [snd]; rewrite app_nil_r; cbn;
      split_and!; [done|done|lia|done|constructor]..].
  destruct (compare_and_update_runs c ip e st1) as (updates & Hu & Hu1 & HuP).
  exists lookups, updates. by rewrite Hu, Hl.
Qed.

End status_and_calls.

(** * One call of [log] on a log file as it is found *)

Section one_log_call.

(** X14. On a log file made of complete lines (an absent or empty file
    included) a [log] call with a one-line message appends its entry: with
    fewer than 10 lines before, nothing is lost; with 10 or more, the last
    9 lines are kept before the new entry and the older ones are dropped. *)
Theorem log_appends_then_evicts (e : env) (st : state) (m : string) :
  single_line m = true →
  Forall (λ l, is_line l = true) (log_lines (fs st)) →
  let before := log_lines (fs st) in
  let after := log_lines (fs (log m e st).2) in
  (length before < 10 → after = before ++ [entry e (ticks st) m])
  ∧ (10 ≤ length before →
     after = drop (length before - 9) before ++ [entry e (ticks st) m])
  ∧ (fs st !! LOG_FILE = None → after = [entry e (ticks st) m]).
Proof.
  intros Hm Hwf. cbv zeta. rewrite log_run. cbn [snd].
  rewrite logged_step by done. rewrite (last_n_snoc 9). split_and!.
  - intros Hlen. rewrite last_n_all; [done|lia].
  - done.
  - intros Habsent. unfold log_lines. by rewrite Habsent.
Qed.

Lemma log_appends_then_evicts_witness :
  single_line "first entry" = true
  ∧ Forall (λ l, is_line l = true) (log_lines (fs (boot ∅)))
  ∧ log_lines (fs (log "first entry" silent_env (boot ∅)).2)
    = [entry silent_env 0 "first entry"].
Proof.
  assert (H1 : single_line "first entry" = true) by reflexivity.
  assert (H2 : Forall (λ l, is_line l = true) (log_lines (fs (boot ∅))))
    by constructor.
  split; [exact H1|]. split; [exact H2|].
  exact (proj2 (proj2 (log_appends_then_evicts silent_env (boot ∅)
                         "first entry" H1 H2)) eq_refl).
Defined.

Lemma readlines_front s P t :
  readlines s = P ++ [t] → Forall (λ l, is_line l = true) P.
Proof.
  revert P t. induction s as [|c s IH]; intros P t.
  { by destruct P. }
  rewrite readlines_cons. destruct (Ascii.eqb c LF) eqn:E.
  - destruct P as [|p P]; [constructor|]. intros [= <- H].
    constructor; [|by eapply IH]. cbn. by rewrite E.
  - destruct (readlines s) as [|l ls].
    + destruct P as [|p [|q P]]; [constructor|done..].
    + destruct P as [|p P]; [constructor|]. intros [= <- H].
      specialize (IH (l :: P) t). rewrite H in IH.
      specialize (IH eq_refl). apply Forall_cons in IH as [Hl HP].
      constructor; [|done]. cbn. by rewrite E.
Qed.

(** X15. When the last line of the log file lacks its line feed, a [log]
    call with a one-line message glues its entry to that line: read again,
    the log ends with one line made of the unfinished line and the entry,
    after at most 8 of the complete lines, and it has no more lines than
    before. *)
Theorem log_glues_to_unfinished_line (e : env) (st : state) (m : string)
    (complete : list string) (rest : string) :
  single_line m = true →
  log_lines (fs st) = complete ++ [rest] →
  lacks LF rest = true →
  log_lines (fs (log m e st).2)
  = last_n 8 complete ++ [rest +:+ entry e (ticks st) m]
  ∧ length (log_lines (fs (log m e st).2)) ≤ length (log_lines (fs st)).
Proof.
  intros Hm Hlines Hrest.
  destruct (single_line_parts m Hm) as [HLF HCR].
  assert (Hwf : Forall (λ l, is_line l = true) complete).
  { unfold log_lines in Hlines. destruct (fs st !! LOG_FILE) as [raw|].
    - by apply readlines_front in Hlines.
    - by destruct complete. }
  assert (Hafter : log_lines (fs (log m e st).2)
                   = last_n 8 complete ++ [rest +:+ entry e (ticks st) m]).
  { rewrite log_run. cbn [snd]. rewrite logged_lines by done.
    unfold log_written. rewrite Hlines.
    rewrite (last_n_snoc 9), (last_n_snoc 8).
    rewrite <- app_assoc. cbn [app].
    replace (joinlines (last_n 8 complete ++ [rest; entry e (ticks st) m]))
      with (joinlines (last_n 8 complete
                       ++ [rest +:+ entry e (ticks st) m])).
    2:{ rewrite !joinlines_app, !joinlines_cons.
        change (joinlines []) with "". by rewrite <- append_assoc. }
    apply readlines_joinlines, Forall_app. split.
    - by apply Forall_last_n.
    - repeat constructor. apply is_line_prepend; [done|].
      by apply entry_is_line. }
  split; [done|]. rewrite Hafter, Hlines, !length_app. cbn.
  pose proof (last_n_length 8 complete) as H8.
  assert (length (last_n 8 complete) ≤ length complete).
  { unfold last_n. rewrite length_drop. lia. }
  lia.
Qed.

Lemma log_glues_to_unfinished_line_witness :
  single_line "next entry" = true
  ∧ log_lines (fs (boot unfinished_log)) = [] ++ ["half a line"]
  ∧ lacks LF "half a line" = true
  ∧ log_lines (fs (log "next entry" silent_env (boot unfinished_log)).2)
    = ["half a line" +:+ entry silent_env 0 "next entry"].
Proof.
  assert (H1 : single_line "next entry" = true) by reflexivity.
  assert (H2 : log_lines (fs (boot unfinished_log)) = [] ++ ["half a line"])
    by (vm_compute; reflexivity).
  assert (H3 : lacks LF "half a line" = true) by reflexivity.
  split; [exact H1|]. split; [exact H2|]. split; [exact H3|].
  exact (proj1 (log_glues_to_unfinished_line silent_env
                  (boot unfinished_log) "next entry" [] "half a line"
                  H1 H2 H3)).
Defined.

End one_log_call.

(** * Runs that stop early, and runs that end quietly *)

Section early_and_quiet.

Lemma within_resolve_current (P : event → bool) :
  (∀ ev, log_only ev = true → P ev = true) →
  P (EvExists "config.txt") = true → P (EvRead "config.txt") = true →
  (∀ cmd flags, is_lookup_request (EvRun cmd flags) = true →
                P (EvRun cmd flags) = true) →
  within P resolve_current.
Proof.
  intros Hlog He Hr Hrun. unfold resolve_current.
  apply within_bind; [apply within_ask|]. intros e'.
  destruct (bool_decide _).
  { apply within_bind; [apply within_print; by apply Hlog|]. intros _.
    apply within_sys_exit. }
  apply within_bind; [by apply within_read_config|]. intros c.
  apply within_bind; [|intros; apply within_mret].
  destruct (String.eqb _ _); [|apply within_mret].
  apply within_get_ipv6_from_site; [done|]. intros flags. by apply Hrun.
Qed.

(** X16. The cache is consulted only once the current address is known: a
    run that ends before that (version flag, configuration error, failed
    lookup) never tests, reads or writes the cache file and never issues an
    update request; the cache file is as it was. *)
Theorem early_end_leaves_cache_alone (e : env) (files : gmap string string) :
  (∀ c ip, (resolve_current e (boot files)).1 ≠ Ret (c, ip)) →
  let r := main e (boot files) in
  r.1 ≠ Ret tt
  ∧ Forall (λ ev, touches IPV6_FILE ev = false
                  ∧ is_update_request ev = false) (trace r.2)
  ∧ fs r.2 !! IPV6_FILE = files !! IPV6_FILE.
Proof.
  intros Hearly. cbv zeta.
  set (P := λ ev, negb (touches IPV6_FILE ev || is_update_request ev)).
  assert (H : within P resolve_current).
  { apply within_resolve_current; try done.
    - intros ev Hev. unfold P.
      destruct (log_only_elsewhere ev Hev) as (-> & _).
      by destruct (log_only_no_dealing ev Hev) as (_ & -> & _).
    - intros cmd flags. unfold P. cbn.
      destruct cmd as [|a [|b cmd]]; try done.
      intros [_ ->%String.eqb_eq]%andb_prop. cbn. by rewrite andb_false_r. }
  destruct (H e (boot files)) as [(evs & Ht & Hevs) Hfs].
  rewrite main_split. unfold bind.
  destruct (resolve_current e (boot files)) as [[[c ip]|code|x] st1] eqn:E.
  { by destruct (Hearly c ip). }
  all: cbn [fst snd boot trace fs app] in *; split_and!; try done.
  all: try (rewrite Ht; eapply Forall_impl; [exact Hevs|];
            intros ev; unfold P;
            by intros [-> ->]%negb_true_iff%orb_false_iff).
  all: by apply Hfs.
Qed.

Lemma early_end_leaves_cache_alone_witness :
  (∀ c ip,
     (resolve_current no_curl_env
        (boot (sample_files (Some "2001:db8::2")))).1 ≠ Ret (c, ip))
  ∧ fs (main no_curl_env (boot (sample_files (Some "2001:db8::2")))).2
      !! IPV6_FILE
    = Some "2001:db8::2".
Proof.
  assert (H : ∀ c ip,
            (resolve_current no_curl_env
               (boot (sample_files (Some "2001:db8::2")))).1 ≠ Ret (c, ip))
    by (intros c ip; vm_compute; discriminate).
  split; [exact H|].
  rewrite (proj2 (proj2 (early_end_leaves_cache_alone no_curl_env
                           (sample_files (Some "2001:db8::2")) H))).
  reflexivity.
Defined.

Lemma trace_grows {A} (m : M A) (f : event → bool) e st :
  within (λ _, true) m →
  existsb f (trace st) = true → existsb f (trace (m e st).2) = true.
Proof.
  intros H Hst. destruct (H e st) as [(evs & -> & _) _].
  by rewrite existsb_app, Hst.
Qed.

Lemma logged_wrote e st m :
  existsb (writes LOG_FILE) (trace (logged e st m)) = true.
Proof.
  cbn [logged trace]. rewrite existsb_app. unfold log_trace.
  rewrite !existsb_app. cbn. by rewrite !orb_true_r.
Qed.

Lemma compare_and_update_wrote c ip e st :
  (∀ x, (compare_and_update c ip e st).1 ≠ Raise x) →
  existsb (writes LOG_FILE) (trace (compare_and_update c ip e st).2) = true.
Proof.
  rewrite compare_and_update_run. destruct (_ && _).
  - rewrite skip_update_run. intros _. apply logged_wrote.
  - rewrite update_and_store_run. cbv zeta.
    destruct (curl e _) as [rc out|msg].
    + destruct (rc =? 0)%Z; intros _; apply logged_wrote.
    + intros H. by destruct (H (OSError msg)).
Qed.

(** X17. Past the version check, only an uncaught exception ends a run
    without a word: a run that returns or calls [sys.exit] has rewritten the
    log file at least once. *)
Theorem ended_run_has_logged (e : env) (files : gmap string string) :
  "--version" ∉ argv e →
  (∀ x, (main e (boot files)).1 ≠ Raise x) →
  existsb (writes LOG_FILE) (trace (main e (boot files)).2) = true.
Proof.
  intros Hv. rewrite main_no_version by done.
  rewrite (bind_run (read_config _)).
  destruct (files !! "config.txt") as [text|] eqn:Hp.
  2:{ rewrite read_config_missing by done. intros _. apply logged_wrote. }
  destruct (configparser e (text_read text)) as [msg|get] eqn:Hparse.
  { rewrite (read_config_garbled _ e (boot files) text msg) by done.
    intros H. by destruct (H (ConfigError msg)). }
  rewrite (read_config_parsed _ e (boot files) text get) by done.
  destruct (config_error get); [intros _; apply logged_wrote|].
  rewrite (bind_run (resolve_address _)).
  destruct (decide (cfg_ipv6 (config_value get) = "")) as [Hempty|Hstatic].
  - rewrite resolve_address_dynamic, get_ipv6_from_site_run by done.
    cbv zeta. destruct (curl e _) as [rc out|msg].
    + destruct (rc =? 0)%Z; [|intros _; apply logged_wrote].
      apply compare_and_update_wrote.
    + intros H. by destruct (H (OSError msg)).
  - rewrite resolve_address_static by done. apply compare_and_update_wrote.
Qed.

Lemma ended_run_has_logged_witness :
  ("--version" ∉ argv refused_env)
  ∧ (∀ x, (main refused_env (boot (sample_files None))).1 ≠ Raise x)
  ∧ existsb (writes LOG_FILE)
      (trace (main refused_env (boot (sample_files None))).2) = true.
Proof.
  assert (H1 : "--version" ∉ argv refused_env).
  { intros [E|E]%elem_of_cons; [discriminate E|by apply elem_of_nil in E]. }
  assert (H2 : ∀ x, (main refused_env (boot (sample_files None))).1
                    ≠ Raise x)
    by (intros x; vm_compute; discriminate).
  split; [exact H1|]. split; [exact H2|].
  exact (ended_run_has_logged refused_env (sample_files None) H1 H2).
Defined.

End early_and_quiet.
